(** * nodeboard: the cleaning, join and aggregation pipeline of [app.py]

    A shallow embedding of the tabular pipeline of [src/app.py] and of its
    filter callback.  The pandas, [os] and [re] primitives the script calls
    are modelled on data frames held row by row; the script's own functions
    ([get_latest_file], [data1_clean], [data2_clean], the module-level merge
    and group-by, [filter_data]) are transcribed call for call on top of
    them. *)

From Stdlib Require Import List String Ascii ZArith QArith Bool Lia Permutation Sorted.
Import ListNotations.
Close Scope Q_scope.
Open Scope string_scope.
Open Scope list_scope.

(** ** Exceptions and fallible computations *)

(** The Python exceptions the script can meet. *)
Inductive exn : Type :=
| KeyError (key : string)
| TypeError
| ValueError
| FileNotFoundError (msg : string).

(** A computation that returns or raises. *)
Inductive result (A : Type) : Type :=
| Ok (a : A)
| Raise (e : exn).

Arguments Ok {A} a.
Arguments Raise {A} e.

Definition rbind {A B : Type} (m : result A) (k : A -> result B) : result B :=
  match m with
  | Ok a => k a
  | Raise e => Raise e
  end.

Declare Scope result_scope.
Delimit Scope result_scope with result.
Notation "x <- m ;; k" := (rbind m (fun x => k))
  (at level 100, m at next level, right associativity) : result_scope.

(** ** Cells and data frames *)

(** A spreadsheet cell as pandas holds it: a missing value ([NaN], also the
    [NaT] of a datetime column), text, an integer, a float (carried by a
    fraction, compared structurally) or a timestamp in nanoseconds. *)
Inductive cell : Type :=
| NaN
| Str (s : string)
| Int (z : Z)
| Float (q : Q)
| Time (t : Z).

Definition Q_eq_dec (a b : Q) : {a = b} + {a <> b}.
Proof.
  decide equality; [apply Pos.eq_dec | apply Z.eq_dec].
Defined.

Definition cell_eq_dec (a b : cell) : {a = b} + {a <> b}.
Proof.
  decide equality;
    [apply string_dec | apply Z.eq_dec | apply Q_eq_dec | apply Z.eq_dec].
Defined.

Definition cell_eqb (a b : cell) : bool :=
  if cell_eq_dec a b then true else false.

(** [pd.notna] on one value. *)
Definition notna (c : cell) : bool :=
  match c with
  | NaN => false
  | _ => true
  end.

(** A data frame with the default integer index: the column labels and the
    rows in index order, each row holding its cells in column order. *)
Record frame : Type := mkFrame {
  columns : list string;
  rows : list (list cell)
}.

(** The cell of row [r] under the first column labelled [c]. *)
Fixpoint lookup_cell (cols : list string) (r : list cell) (c : string)
  : option cell :=
  match cols, r with
  | k :: cols', v :: r' => if String.eqb k c then Some v else lookup_cell cols' r' c
  | _, _ => None
  end.

Definition cell_at (cols : list string) (c : string) (r : list cell) : cell :=
  match lookup_cell cols r c with
  | Some v => v
  | None => NaN
  end.

Definition has_col (c : string) (df : frame) : bool :=
  existsb (String.eqb c) (columns df).

(** [df[c]]: the column as a list, or [KeyError]. *)
Definition get_col (c : string) (df : frame) : result (list cell) :=
  if has_col c df
  then Ok (map (cell_at (columns df) c) (rows df))
  else Raise (KeyError c).

(** [df.rename(columns=m)]: labels absent from [m] are kept. *)
Definition rename_label (m : list (string * string)) (c : string) : string :=
  match find (fun p => String.eqb (fst p) c) m with
  | Some p => snd p
  | None => c
  end.

Definition rename (m : list (string * string)) (df : frame) : frame :=
  mkFrame (map (rename_label m) (columns df)) (rows df).

(** Keep the positions of [l] whose mask bit is set. *)
Fixpoint select {A : Type} (mask : list bool) (l : list A) : list A :=
  match mask, l with
  | b :: mask', x :: l' => if b then x :: select mask' l' else select mask' l'
  | _, _ => []
  end.

Definition mem_label (c : string) (names : list string) : bool :=
  existsb (String.eqb c) names.

(** [df.drop(columns=names, errors='ignore')]. *)
Definition drop_columns (names : list string) (df : frame) : frame :=
  let mask := map (fun c => negb (mem_label c names)) (columns df) in
  mkFrame (select mask (columns df)) (map (select mask) (rows df)).

(** [df.dropna(subset=subset)]: [KeyError] on a label that is no column,
    otherwise the rows with no missing value under [subset], in order. *)
Definition dropna (subset : list string) (df : frame) : result frame :=
  match find (fun c => negb (has_col c df)) subset with
  | Some c => Raise (KeyError c)
  | None =>
      Ok (mkFrame (columns df)
            (filter (fun r => forallb (fun c => notna (cell_at (columns df) c r)) subset)
               (rows df)))
  end.

(** Replace the cell under the first column labelled [c] by [f] of it. *)
Fixpoint update_cell (cols : list string) (c : string) (f : cell -> cell)
  (r : list cell) : list cell :=
  match cols, r with
  | k :: cols', v :: r' =>
      if String.eqb k c then f v :: r' else v :: update_cell cols' c f r'
  | _, _ => r
  end.

(** [df[c] = conv(df[c])] for an element-wise conversion [conv]: the read
    of [df[c]] raises [KeyError] when the column is absent. *)
Definition assign_converted (c : string) (conv : cell -> cell) (df : frame)
  : result frame :=
  if has_col c df
  then Ok (mkFrame (columns df) (map (update_cell (columns df) c conv) (rows df)))
  else Raise (KeyError c).

(** [df.drop([0, 1, 2, 3, 4], axis=0).reset_index(drop=True)] on the default
    index: a label that is not in the index is a [KeyError]. *)
Definition drop_leading_rows (n : nat) (df : frame) : result frame :=
  if Nat.leb n (List.length (rows df))
  then Ok (mkFrame (columns df) (skipn n (rows df)))
  else Raise (KeyError "rows").

Section Cleaners.

(** [pd.to_datetime] on one value: the nanosecond timestamp, or [None]
    where pandas cannot convert it. *)
Variable to_datetime : cell -> option Z.

(** [pd.to_numeric] on one value: the number, or [None] where pandas
    cannot convert it. *)
Variable to_numeric : cell -> option Q.

(** [pd.to_datetime(..., errors='coerce')], element by element. *)
Definition to_datetime_coerce (c : cell) : cell :=
  match to_datetime c with
  | Some t => Time t
  | None => NaN
  end.

(** [pd.to_numeric(..., errors='coerce')], element by element. *)
Definition to_numeric_coerce (c : cell) : cell :=
  match to_numeric c with
  | Some q => Float q
  | None => NaN
  end.

Definition data1_renames : list (string * string) :=
  [ ("Unnamed: 0", "Sl.no");
    ("Unnamed: 1", "IP Address");
    ("Unnamed: 4", "Event");
    ("Unnamed: 6", "Alarm Time");
    ("Unnamed: 2", "Node Alias") ].

Definition data1_dropped : list string :=
  ["Sl.no"; "Clear Time"; "Duration"; "Description"; "Host Name"].

(** [data1_clean], from the frame [pd.read_excel(file1_path, skiprows=5)]
    returned. *)
Definition data1_clean (df : frame) : result frame :=
  (let df := rename data1_renames df in
   let df := drop_columns data1_dropped df in
   df <- dropna ["Node Alias"; "Alarm Time"] df ;;
   df <- assign_converted "Alarm Time" to_datetime_coerce df ;;
   df <- dropna ["Alarm Time"] df ;;
   Ok df)%result.

Definition data2_renames : list (string * string) :=
  [ ("Unnamed: 0", "Node Alias");
    ("Unnamed: 1", "IP Address");
    ("Unnamed: 4", "Availability");
    ("Unnamed: 5", "Latency(msec)");
    ("Unnamed: 6", "Packet Loss(%)") ].

(** [data2_clean], from the frame [pd.read_excel(file2_path)] returned. *)
Definition data2_clean (df : frame) : result frame :=
  (df <- drop_leading_rows 5 df ;;
   let df := drop_columns ["Unnamed: 2"; "Unnamed: 3"] df in
   let df := rename data2_renames df in
   df <- assign_converted "Packet Loss(%)" to_numeric_coerce df ;;
   df <- assign_converted "Availability" to_numeric_coerce df ;;
   df <- assign_converted "Latency(msec)" to_numeric_coerce df ;;
   df <- dropna ["Packet Loss(%)"; "Availability"; "Latency(msec)"] df ;;
   Ok df)%result.

End Cleaners.

(** ** Join and aggregation *)

(** [df[names]]: the listed columns, in the listed order. *)
Definition select_columns (names : list string) (df : frame) : result frame :=
  match find (fun c => negb (has_col c df)) names with
  | Some c => Raise (KeyError c)
  | None =>
      Ok (mkFrame names
            (map (fun r => map (fun c => cell_at (columns df) c r) names) (rows df)))
  end.

(** The suffix pandas puts on a non-key label that both sides carry. *)
Definition overlap_suffix (others : list string) (key sfx c : string) : string :=
  if negb (String.eqb c key) && mem_label c others then c ++ sfx else c.

(** The rows [pd.merge(..., how='left')] makes of one left row: one per right
    row with an equal key, in the right frame's order, and a single row
    padded with [NaN] when no right row has the key. *)
Definition attach (key : string) (left right : frame) (rmask : list bool)
  (l : list cell) : list (list cell) :=
  let k := cell_at (columns left) key l in
  match filter (fun r => cell_eqb (cell_at (columns right) key r) k) (rows right) with
  | [] => [l ++ map (fun _ => NaN) (select rmask (columns right))]
  | ms => map (fun r => l ++ select rmask r) ms
  end.

(** [pd.merge(left, right, on=key, how='left')]. *)
Definition merge_left (key : string) (left right : frame) : result frame :=
  if negb (has_col key left) || negb (has_col key right)
  then Raise (KeyError key)
  else
    let rmask := map (fun c => negb (String.eqb c key)) (columns right) in
    let cols :=
      map (overlap_suffix (columns right) key "_x") (columns left)
      ++ map (overlap_suffix (columns left) key "_y") (select rmask (columns right)) in
    Ok (mkFrame cols (flat_map (attach key left right rmask) (rows left))).

(** The order of group keys: numbers, then timestamps, then text, each in
    its own order; a missing value comes last. *)
Definition cell_rank (c : cell) : nat :=
  match c with
  | Int _ | Float _ => 0
  | Time _ => 1
  | Str _ => 2
  | NaN => 3
  end.

Definition cell_number (c : cell) : Q :=
  match c with
  | Int z => inject_Z z
  | Float q => q
  | _ => 0%Q
  end.

Definition cell_leb (a b : cell) : bool :=
  match a, b with
  | Str s, Str s' => String.leb s s'
  | Time t, Time t' => Z.leb t t'
  | (Int _ | Float _), (Int _ | Float _) => Qle_bool (cell_number a) (cell_number b)
  | _, _ => Nat.leb (cell_rank a) (cell_rank b)
  end.

Fixpoint insert_sorted (c : cell) (l : list cell) : list cell :=
  match l with
  | [] => [c]
  | x :: l' => if cell_leb c x then c :: l else x :: insert_sorted c l'
  end.

Fixpoint sort_cells (l : list cell) : list cell :=
  match l with
  | [] => []
  | x :: l' => insert_sorted x (sort_cells l')
  end.

(** The values of column [val] over the rows whose [key] cell is [k]. *)
Definition group_values (key val : string) (df : frame) (k : cell) : list cell :=
  map (cell_at (columns df) val)
    (filter (fun r => cell_eqb (cell_at (columns df) key r) k) (rows df)).

(** [Series.nunique()]: the number of distinct values, missing ones apart. *)
Definition nunique (vs : list cell) : nat :=
  List.length (nodup cell_eq_dec (filter notna vs)).

(** [df.groupby(key)[val].nunique().reset_index(name=name)]: the groups are
    the distinct non-missing keys, sorted. *)
Definition groupby_nunique (key val name : string) (df : frame) : result frame :=
  (ks <- get_col key df ;;
   _ <- get_col val df ;;
   let keys := sort_cells (nodup cell_eq_dec (filter notna ks)) in
   Ok (mkFrame [key; name]
         (map (fun k => [k; Int (Z.of_nat (nunique (group_values key val df k)))]) keys))
  )%result.

(** The module-level tables the callback reads. *)
Record globals : Type := mkGlobals {
  merged_df : frame;
  downtime_count : frame
}.

Section Startup.

Variable to_datetime : cell -> option Z.
Variable to_numeric : cell -> option Q.

(** The module-level statements from [df1_cleaned = ...] to the
    [downtime_count] table, on the two frames read from the files. *)
Definition startup (df1 df2 : frame) : result globals :=
  (df1_cleaned <- data1_clean to_datetime df1 ;;
   df2_cleaned <- data2_clean to_numeric df2 ;;
   right <- select_columns ["IP Address"; "Availability"] df2_cleaned ;;
   merged <- merge_left "IP Address" df1_cleaned right ;;
   counts <- groupby_nunique "Node Alias" "Alarm Time" "Downtime Count" merged ;;
   Ok (mkGlobals merged counts))%result.

End Startup.

(** ** The filter callback *)

(** A callback runs against the module's tables: it returns or raises, and
    hands the tables on. *)
Definition M (A : Type) : Type := globals -> result A * globals.

Definition ret {A : Type} (a : A) : M A := fun g => (Ok a, g).

Definition raise {A : Type} (e : exn) : M A := fun g => (Raise e, g).

Definition bind {A B : Type} (m : M A) (k : A -> M B) : M B :=
  fun g =>
    match m g with
    | (Ok a, g') => k a g'
    | (Raise e, g') => (Raise e, g')
    end.

(** Reading a module-level name. *)
Definition read {A : Type} (field : globals -> A) : M A := fun g => (Ok (field g), g).

(** Rebinding the module-level [downtime_count]. *)
Definition write_downtime_count (df : frame) : M unit :=
  fun g => (Ok tt, mkGlobals (merged_df g) df).

(** A pandas operation that builds a new object from its operands. *)
Definition pure_op {A : Type} (r : result A) : M A := fun g => (r, g).

Declare Scope callback_scope.
Delimit Scope callback_scope with callback.
Notation "x <- m ;; k" := (bind m (fun x => k))
  (at level 100, m at next level, right associativity) : callback_scope.

Fixpoint map_result {A B : Type} (f : A -> result B) (l : list A) : result (list B) :=
  match l with
  | [] => Ok []
  | x :: l' =>
      (y <- f x ;; ys <- map_result f l' ;; Ok (y :: ys))%result
  end.

(** [c <= k] and [c > k] for a cell and an integer: a missing value compares
    false, text and timestamps do not compare with an integer. *)
Definition cell_le_int (k : Z) (c : cell) : result bool :=
  match c with
  | Int z => Ok (Z.leb z k)
  | Float q => Ok (Qle_bool q (inject_Z k))
  | NaN => Ok false
  | Str _ | Time _ => Raise TypeError
  end.

Definition cell_gt_int (k : Z) (c : cell) : result bool :=
  match c with
  | Int z => Ok (Z.ltb k z)
  | Float q => Ok (negb (Qle_bool q (inject_Z k)))
  | NaN => Ok false
  | Str _ | Time _ => Raise TypeError
  end.

(** [c >= t] and [c <= t] for a cell and a timestamp. *)
Definition cell_ge_time (t : Z) (c : cell) : result bool :=
  match c with
  | Time u => Ok (Z.leb t u)
  | NaN => Ok false
  | _ => Raise TypeError
  end.

Definition cell_le_time (t : Z) (c : cell) : result bool :=
  match c with
  | Time u => Ok (Z.leb u t)
  | NaN => Ok false
  | _ => Raise TypeError
  end.

(** [m1 & m2] on two boolean series over the same index. *)
Fixpoint mask_and (m1 m2 : list bool) : list bool :=
  match m1, m2 with
  | a :: m1', b :: m2' => (a && b) :: mask_and m1' m2'
  | _, _ => []
  end.

(** [df[mask]]: a new frame with the rows whose mask bit is set. *)
Definition boolean_index (df : frame) (mask : list bool) : frame :=
  mkFrame (columns df) (select mask (rows df)).

(** [df.to_dict('records')]: one label-to-value dictionary per row. *)
Definition to_dict_records (df : frame) : list (list (string * cell)) :=
  map (fun r => combine (columns df) r) (rows df).

(** Python truthiness of a date-picker value: [None] and the empty string
    are false. *)
Definition truthy (s : option string) : bool :=
  match s with
  | Some str => negb (String.eqb str "")
  | None => false
  end.

(** [downtime_value == label] for a dropdown value that may be [None]. *)
Definition value_is (v : option string) (label : string) : bool :=
  match v with
  | Some str => String.eqb str label
  | None => false
  end.

Section Callback.

Variable to_datetime : cell -> option Z.

(** [pd.to_datetime(s)] with the default [errors='raise']. *)
Definition to_datetime_raise (s : option string) : result Z :=
  match s with
  | Some str =>
      match to_datetime (Str str) with
      | Some t => Ok t
      | None => Raise ValueError
      end
  | None => Raise ValueError
  end.

(** The downtime-count branch of [filter_data] (lines 258-265). *)
Definition bucket_filter (downtime_value : option string) (filtered_df : frame)
  : M frame :=
  if value_is downtime_value "1-3" then
    (col <- pure_op (get_col "Downtime Count" filtered_df) ;;
     mask <- pure_op (map_result (cell_le_int 3) col) ;;
     ret (boolean_index filtered_df mask))%callback
  else if value_is downtime_value "4-5" then
    (col <- pure_op (get_col "Downtime Count" filtered_df) ;;
     lo <- pure_op (map_result (cell_gt_int 3) col) ;;
     col' <- pure_op (get_col "Downtime Count" filtered_df) ;;
     hi <- pure_op (map_result (cell_le_int 5) col') ;;
     ret (boolean_index filtered_df (mask_and lo hi)))%callback
  else if value_is downtime_value ">5" then
    (col <- pure_op (get_col "Downtime Count" filtered_df) ;;
     mask <- pure_op (map_result (cell_gt_int 5) col) ;;
     ret (boolean_index filtered_df mask))%callback
  else if value_is downtime_value ">10" then
    (col <- pure_op (get_col "Downtime Count" filtered_df) ;;
     mask <- pure_op (map_result (cell_gt_int 10) col) ;;
     ret (boolean_index filtered_df mask))%callback
  else ret filtered_df.

(** The date-range branch of [filter_data] (lines 268-272). *)
Definition date_filter (start_date end_date : option string) (filtered_df : frame)
  : M frame :=
  if truthy start_date && truthy end_date
  then
    (col <- pure_op (get_col "Alarm Time" filtered_df) ;;
     lo_t <- pure_op (to_datetime_raise start_date) ;;
     lo <- pure_op (map_result (cell_ge_time lo_t) col) ;;
     col' <- pure_op (get_col "Alarm Time" filtered_df) ;;
     hi_t <- pure_op (to_datetime_raise end_date) ;;
     hi <- pure_op (map_result (cell_le_time hi_t) col') ;;
     ret (boolean_index filtered_df (mask_and lo hi)))%callback
  else ret filtered_df.

(** [filter_data(n_clicks, start_date, end_date, downtime_value)]. *)
Definition filter_data (n_clicks : option Z) (start_date end_date : option string)
  (downtime_value : option string) : M (list (list (string * cell))) :=
  match n_clicks with
  | None =>
      (table <- read downtime_count ;;
       ret (to_dict_records table))%callback
  | Some _ =>
      (filtered_df <- read downtime_count ;;
       filtered_df <- bucket_filter downtime_value filtered_df ;;
       filtered_df <- date_filter start_date end_date filtered_df ;;
       ret (to_dict_records filtered_df))%callback
  end.

End Callback.

(** ** The file locator *)





Section Locator.

(** The configured directory and what [os.listdir] returns for it. *)
Variable downloads_path : string.
Variable listdir : list string.

(** The language of a pattern: whether the whole of a string matches. *)
Variable fullmatch : string -> string -> bool.

(** [os.path.getctime] of a path. *)
Variable getctime : string -> Q.




End Locator.

(** ** The module-level script *)

(** What stops the module-level code: an exception no handler catches, or
    the use of a name that was never bound. *)
Inductive script_error : Type :=
| Uncaught (e : exn)
| NameError (name : string).

(** How a run of module-level code ends. *)
Inductive run (A : Type) : Type :=
| Finished (a : A)
| Stopped (err : script_error).

Arguments Finished {A} a.
Arguments Stopped {A} err.



Section Script.

Variable downloads_path : string.
Variable listdir : list string.
Variable fullmatch : string -> string -> bool.
Variable getctime : string -> Q.
Variable file1_pattern file2_pattern : string.

(** [pd.read_excel(path, skiprows=n)]. *)
Variable read_excel : string -> nat -> result frame.

Variable to_datetime : cell -> option Z.
Variable to_numeric : cell -> option Q.




End Script.

(** [s.min()] and [s.max()] on a datetime column: missing values are
    skipped, and the result is missing when nothing is left. *)
Definition cell_time (c : cell) : result (option Z) :=
  match c with
  | Time t => Ok (Some t)
  | NaN => Ok None
  | _ => Raise TypeError
  end.

Fixpoint series_extreme (pick : Z -> Z -> Z) (col : list cell) : result (option Z) :=
  match col with
  | [] => Ok None
  | c :: col' =>
      (t <- cell_time c ;;
       rest <- series_extreme pick col' ;;
       Ok (match t, rest with
           | Some a, Some b => Some (pick a b)
           | Some a, None => Some a
           | None, r => r
           end))%result
  end.

(** [pd.to_datetime('2020-01-01')] and [pd.to_datetime('2020-12-31')], in
    nanoseconds. *)
Definition default_min_date : Z := 1577836800000000000.
Definition default_max_date : Z := 1609372800000000000.

(** Lines 104-111: the bounds of the date picker. *)
Definition date_bounds (merged : frame) : result (Z * Z) :=
  (col <- get_col "Alarm Time" merged ;;
   min_date <- series_extreme Z.min col ;;
   col' <- get_col "Alarm Time" merged ;;
   max_date <- series_extreme Z.max col' ;;
   let min_date := match min_date with Some t => t | None => default_min_date end in
   let max_date := match max_date with Some t => t | None => default_max_date end in
   Ok (min_date, max_date))%result.

(** ** The vocabulary of the specification *)

(** Whether the cell of [r] under [c] is there and [conv] converts it. *)
Definition converts {A : Type} (conv : cell -> option A) (cols : list string)
  (c : string) (r : list cell) : bool :=
  match lookup_cell cols r c with
  | Some v => match conv v with Some _ => true | None => false end
  | None => false
  end.

(** The frame [data1_clean] holds after its renaming and column drop. *)
Definition alarm_table (df : frame) : frame :=
  drop_columns data1_dropped (rename data1_renames df).

(** In the spec's words: the row has a node alias and an alarm time, and
    the alarm time parses. *)
Definition alarm_row_valid (to_datetime : cell -> option Z) (cols : list string)
  (r : list cell) : bool :=
  notna (cell_at cols "Node Alias" r)
  && notna (cell_at cols "Alarm Time" r)
  && converts to_datetime cols "Alarm Time" r.

(** The frame [data2_clean] holds after its row drop, column drop and
    renaming. *)
Definition availability_table (df : frame) : frame :=
  rename data2_renames
    (drop_columns ["Unnamed: 2"; "Unnamed: 3"]
       (mkFrame (columns df) (skipn 5 (rows df)))).

(** In the spec's words: all three metrics of the row coerce to numbers. *)
Definition metrics_row_valid (to_numeric : cell -> option Q) (cols : list string)
  (r : list cell) : bool :=
  converts to_numeric cols "Packet Loss(%)" r
  && converts to_numeric cols "Availability" r
  && converts to_numeric cols "Latency(msec)" r.

(** The three column assignments of [data2_clean] on one row. *)
Definition coerce_metrics (to_numeric : cell -> option Q) (cols : list string)
  (r : list cell) : list cell :=
  update_cell cols "Latency(msec)" (to_numeric_coerce to_numeric)
    (update_cell cols "Availability" (to_numeric_coerce to_numeric)
       (update_cell cols "Packet Loss(%)" (to_numeric_coerce to_numeric) r)).

(** One row of the aggregated table: a node and its downtime count. *)
Record DowntimeSummary : Type := mkSummary {
  NodeAlias : cell;
  DowntimeCount : Z
}.

Definition summary_row (s : DowntimeSummary) : list cell :=
  [NodeAlias s; Int (DowntimeCount s)].

(** The aggregated table that holds the summaries [l]. *)
Definition summary_table (l : list DowntimeSummary) : frame :=
  mkFrame ["Node Alias"; "Downtime Count"] (map summary_row l).

(** The dictionary the callback returns for a summary. *)
Definition summary_record (s : DowntimeSummary) : list (string * cell) :=
  [("Node Alias", NodeAlias s); ("Downtime Count", Int (DowntimeCount s))].

(** In the spec's words: the predicate a bucket stands for; a value that is
    no bucket keeps every count. *)
Definition bucket_keeps (downtime_value : option string) (count : Z) : bool :=
  if value_is downtime_value "1-3" then Z.leb count 3
  else if value_is downtime_value "4-5" then Z.ltb 3 count && Z.leb count 5
  else if value_is downtime_value ">5" then Z.ltb 5 count
  else if value_is downtime_value ">10" then Z.ltb 10 count
  else true.

(** The availability rows whose IP address is that of the alarm row [l]. *)
Definition ip_matches (alarms avail : frame) (l : list cell) : list (list cell) :=
  filter
    (fun r =>
       cell_eqb (cell_at (columns avail) "IP Address" r)
         (cell_at (columns alarms) "IP Address" l))
    (rows avail).

(** What the join makes of the alarm row [l]: one row per matching
    availability row, or one row with a missing availability. *)
Definition joined_rows (alarms avail : frame) (l : list cell) : list (list cell) :=
  match ip_matches alarms avail l with
  | [] => [l ++ [NaN]]
  | ms => map (fun r => l ++ [cell_at (columns avail) "Availability" r]) ms
  end.


(** The group keys of a frame, in the order of the result. *)
Definition group_keys (key : string) (df : frame) : list cell :=
  sort_cells (nodup cell_eq_dec (filter notna (map (cell_at (columns df) key) (rows df)))).


(** The summaries the group-by of the script produces from a joined table. *)
Definition summaries_of (merged : frame) : list DowntimeSummary :=
  map (fun k =>
         mkSummary k
           (Z.of_nat (nunique (group_values "Node Alias" "Alarm Time" merged k))))
    (group_keys "Node Alias" merged).


(** [ys] is [xs] with each element written one or more times in a row. *)
Inductive stutters {A : Type} : list A -> list A -> Prop :=
| stutters_nil : stutters [] []
| stutters_cons (x : A) (n : nat) (xs ys : list A) :
    stutters xs ys -> stutters (x :: xs) (x :: repeat x n ++ ys).

(** The node alias and the alarm time a row shows. *)
Definition alias_and_time (cols : list string) (r : list cell) : cell * cell :=
  (cell_at cols "Node Alias" r, cell_at cols "Alarm Time" r).

(** [l] is [l'] with some elements left out, the order kept. *)
Inductive subsequence {A : Type} : list A -> list A -> Prop :=
| subsequence_nil (l' : list A) : subsequence [] l'
| subsequence_keep (x : A) (l l' : list A) :
    subsequence l l' -> subsequence (x :: l) (x :: l')
| subsequence_skip (x : A) (l l' : list A) :
    subsequence l l' -> subsequence l (x :: l').

(** A frame with the labels of [df] and some of its rows, in order. *)
Definition narrows (df' df : frame) : Prop :=
  columns df' = columns df /\ subsequence (rows df') (rows df).


(** A computation that hands the module's tables on as it found them,
    whether it returns or raises. *)
Definition leaves_tables {A : Type} (m : M A) : Prop :=
  forall g, snd (m g) = g.

(** ** Sample inputs *)

Module Samples.

(** A converter that reads the two texts ["2024-01-01"] and ["2024-01-02"]
    as timestamps. *)
Definition sample_to_datetime (c : cell) : option Z :=
  match c with
  | Time t => Some t
  | Str s =>
      if String.eqb s "2024-01-01" then Some 1704067200000000000%Z
      else if String.eqb s "2024-01-02" then Some 1704153600000000000%Z
      else None
  | _ => None
  end.

Definition sample_to_numeric (c : cell) : option Q :=
  match c with
  | Int z => Some (inject_Z z)
  | Float q => Some q
  | _ => None
  end.

(** An alarm log as [read_excel(..., skiprows=5)] hands it over. *)
Definition alarm_log : frame :=
  mkFrame
    ["Unnamed: 0"; "Unnamed: 1"; "Unnamed: 2"; "Host Name"; "Unnamed: 4";
     "Clear Time"; "Unnamed: 6"]
    [ [Int 1; Str "10.0.0.1"; Str "A"; NaN; Str "down"; NaN; Str "2024-01-01"];
      [Int 2; Str "10.0.0.1"; Str "A"; NaN; Str "down"; NaN; Str "2024-01-01"];
      [Int 3; Str "10.0.0.2"; Str "B"; NaN; Str "down"; NaN; Str "soon"];
      [Int 4; Str "10.0.0.2"; NaN; NaN; Str "down"; NaN; Str "2024-01-01"];
      [Int 5; Str "10.0.0.3"; Str "B"; NaN; Str "down"; NaN; Str "2024-01-02"];
      [Int 6; Str "10.0.0.3"; Str "A"; NaN; Str "down"; NaN; Str "2024-01-02"] ].

Definition banner : list cell := [Str "Report"; NaN; NaN; NaN; NaN; NaN; NaN].

(** An availability report as [read_excel] hands it over. *)
Definition availability_report : frame :=
  mkFrame
    ["Unnamed: 0"; "Unnamed: 1"; "Unnamed: 2"; "Unnamed: 3"; "Unnamed: 4";
     "Unnamed: 5"; "Unnamed: 6"]
    [ banner; banner; banner; banner; banner;
      [Str "A"; Str "10.0.0.1"; NaN; NaN; Int 99; Int 5; Int 0];
      [Str "B"; Str "10.0.0.2"; NaN; NaN; Str "n/a"; Int 5; Int 0];
      [Str "C"; Str "10.0.0.4"; NaN; NaN; Float (995 # 10); Int 7; Int 1] ].

(** The tables the start-up code derives from the two samples. *)
Definition cleaned_alarms : frame :=
  mkFrame ["IP Address"; "Node Alias"; "Event"; "Alarm Time"]
    [ [Str "10.0.0.1"; Str "A"; Str "down"; Time 1704067200000000000];
      [Str "10.0.0.1"; Str "A"; Str "down"; Time 1704067200000000000];
      [Str "10.0.0.3"; Str "B"; Str "down"; Time 1704153600000000000];
      [Str "10.0.0.3"; Str "A"; Str "down"; Time 1704153600000000000] ].

Definition cleaned_availability : frame :=
  mkFrame
    ["Node Alias"; "IP Address"; "Availability"; "Latency(msec)"; "Packet Loss(%)"]
    [ [Str "A"; Str "10.0.0.1"; Float 99; Float 5; Float 0];
      [Str "C"; Str "10.0.0.4"; Float (995 # 10); Float 7; Float 1] ].


Definition merged : frame :=
  mkFrame ["IP Address"; "Node Alias"; "Event"; "Alarm Time"; "Availability"]
    [ [Str "10.0.0.1"; Str "A"; Str "down"; Time 1704067200000000000; Float 99];
      [Str "10.0.0.1"; Str "A"; Str "down"; Time 1704067200000000000; Float 99];
      [Str "10.0.0.3"; Str "B"; Str "down"; Time 1704153600000000000; NaN];
      [Str "10.0.0.3"; Str "A"; Str "down"; Time 1704153600000000000; NaN] ].

(** An availability report that lists the address 10.0.0.1 twice. *)
Definition duplicated_report : frame :=
  mkFrame
    ["Unnamed: 0"; "Unnamed: 1"; "Unnamed: 2"; "Unnamed: 3"; "Unnamed: 4";
     "Unnamed: 5"; "Unnamed: 6"]
    [ banner; banner; banner; banner; banner;
      [Str "A"; Str "10.0.0.1"; NaN; NaN; Int 99; Int 5; Int 0];
      [Str "A"; Str "10.0.0.1"; NaN; NaN; Int 98; Int 6; Int 0] ].




(** The four summaries of the filter example. *)
Definition sample_summaries : list DowntimeSummary :=
  [ mkSummary (Str "A") 2; mkSummary (Str "B") 4;
    mkSummary (Str "C") 6; mkSummary (Str "D") 11 ].

End Samples.

(** ** Lists *)

Lemma filter_map_comm {A B : Type} (p : B -> bool) (f : A -> B) (l : list A) :
  filter p (map f l) = map f (filter (fun a => p (f a)) l).
Proof.
  induction l as [|a l IH]; simpl; [reflexivity|].
  destruct (p (f a)); simpl; rewrite IH; reflexivity.
Qed.

Lemma filter_filter {A : Type} (p q : A -> bool) (l : list A) :
  filter p (filter q l) = filter (fun a => q a && p a) l.
Proof.
  induction l as [|a l IH]; simpl; [reflexivity|].
  destruct (q a); simpl; [destruct (p a)|]; rewrite IH; reflexivity.
Qed.

Lemma filter_all {A : Type} (l : list A) : filter (fun _ => true) l = l.
Proof.
  induction l as [|a l IH]; simpl; [reflexivity | rewrite IH; reflexivity].
Qed.

(** ** Cells under a label *)


Lemma has_col_same_columns (c : string) (df df' : frame) :
  columns df = columns df' -> has_col c df = has_col c df'.
Proof.
  unfold has_col. intros ->. reflexivity.
Qed.

Lemma lookup_update_same (cols : list string) (c : string) (f : cell -> cell)
  (r : list cell) :
  lookup_cell cols (update_cell cols c f r) c = option_map f (lookup_cell cols r c).
Proof.
  revert r. induction cols as [|k cols IH]; intros [|v r]; simpl; try reflexivity.
  destruct (String.eqb k c) eqn:E; simpl; rewrite ?E; [reflexivity | apply IH].
Qed.

Lemma lookup_update_other (cols : list string) (c c' : string) (f : cell -> cell)
  (r : list cell) :
  c' <> c ->
  lookup_cell cols (update_cell cols c f r) c' = lookup_cell cols r c'.
Proof.
  intros Hne. revert r.
  induction cols as [|k cols IH]; intros [|v r]; simpl; try reflexivity.
  destruct (String.eqb k c) eqn:E; simpl.
  - apply String.eqb_eq in E. subst k.
    destruct (String.eqb c c') eqn:E'; [|reflexivity].
    apply String.eqb_eq in E'. congruence.
  - destruct (String.eqb k c'); [reflexivity | apply IH].
Qed.

Lemma cell_at_update_other (cols : list string) (c c' : string) (f : cell -> cell)
  (r : list cell) :
  c' <> c -> cell_at cols c' (update_cell cols c f r) = cell_at cols c' r.
Proof.
  intros Hne. unfold cell_at. rewrite lookup_update_other by exact Hne. reflexivity.
Qed.

Lemma dropna_ok (subset : list string) (df : frame) :
  forallb (fun c => has_col c df) subset = true ->
  dropna subset df =
    Ok (mkFrame (columns df)
          (filter (fun r => forallb (fun c => notna (cell_at (columns df) c r)) subset)
             (rows df))).
Proof.
  intros H. unfold dropna.
  destruct (find (fun c => negb (has_col c df)) subset) as [c|] eqn:E; [|reflexivity].
  apply find_some in E. destruct E as [Hin Hneg].
  rewrite forallb_forall in H. rewrite (H c Hin) in Hneg. discriminate.
Qed.

(** ** The alarm-log cleaner *)

Section AlarmCleaner.

Variable to_datetime : cell -> option Z.

Lemma parsed_alarm_time (cols : list string) (r : list cell) :
  notna (cell_at cols "Alarm Time"
           (update_cell cols "Alarm Time" (to_datetime_coerce to_datetime) r))
  = converts to_datetime cols "Alarm Time" r.
Proof.
  unfold cell_at, converts. rewrite lookup_update_same.
  destruct (lookup_cell cols r "Alarm Time") as [v|]; simpl; [|reflexivity].
  unfold to_datetime_coerce. destruct (to_datetime v); reflexivity.
Qed.

Lemma converted_is_time (cols : list string) (r : list cell) :
  converts to_datetime cols "Alarm Time" r = true ->
  exists t,
    cell_at cols "Alarm Time"
      (update_cell cols "Alarm Time" (to_datetime_coerce to_datetime) r) = Time t.
Proof.
  unfold cell_at, converts. rewrite lookup_update_same.
  destruct (lookup_cell cols r "Alarm Time") as [v|]; simpl; [|discriminate].
  unfold to_datetime_coerce. destruct (to_datetime v) as [t|]; [|discriminate].
  intros _. exists t. reflexivity.
Qed.

Lemma data1_clean_rows (df : frame) :
  has_col "Node Alias" (alarm_table df) = true ->
  has_col "Alarm Time" (alarm_table df) = true ->
  data1_clean to_datetime df =
    Ok (mkFrame (columns (alarm_table df))
          (map (update_cell (columns (alarm_table df)) "Alarm Time"
                  (to_datetime_coerce to_datetime))
             (filter (alarm_row_valid to_datetime (columns (alarm_table df)))
                (rows (alarm_table df))))).
Proof.
  intros Hna Hat. unfold data1_clean. fold (alarm_table df).
  rewrite dropna_ok by (cbn [forallb]; rewrite Hna, Hat; reflexivity).
  cbn [rbind]. unfold assign_converted.
  rewrite (has_col_same_columns _ _ (alarm_table df)) by reflexivity.
  rewrite Hat. cbn [rbind columns rows].
  rewrite dropna_ok
    by (cbn [forallb];
        rewrite (has_col_same_columns _ _ (alarm_table df)) by reflexivity;
        rewrite Hat; reflexivity).
  cbn [rbind columns rows]. do 2 f_equal.
  rewrite filter_map_comm, filter_filter. f_equal.
  apply filter_ext. intros r. unfold alarm_row_valid. cbn [forallb].
  rewrite parsed_alarm_time. rewrite !andb_true_r. reflexivity.
Qed.

End AlarmCleaner.



(** ** The availability-report cleaner *)

Lemma converts_update_other {A : Type} (conv : cell -> option A)
  (cols : list string) (c c' : string) (f : cell -> cell) (r : list cell) :
  c' <> c -> converts conv cols c' (update_cell cols c f r) = converts conv cols c' r.
Proof.
  intros Hne. unfold converts. rewrite lookup_update_other by exact Hne. reflexivity.
Qed.

Section AvailabilityCleaner.

Variable to_numeric : cell -> option Q.

Lemma coerced_notna (cols : list string) (c : string) (r : list cell) :
  notna (cell_at cols c (update_cell cols c (to_numeric_coerce to_numeric) r))
  = converts to_numeric cols c r.
Proof.
  unfold cell_at, converts. rewrite lookup_update_same.
  destruct (lookup_cell cols r c) as [v|]; simpl; [|reflexivity].
  unfold to_numeric_coerce. destruct (to_numeric v); reflexivity.
Qed.


Lemma metrics_kept (cols : list string) (r : list cell) :
  forallb (fun c => notna (cell_at cols c (coerce_metrics to_numeric cols r)))
    ["Packet Loss(%)"; "Availability"; "Latency(msec)"]
  = metrics_row_valid to_numeric cols r.
Proof.
  unfold coerce_metrics, metrics_row_valid. cbn [forallb].
  rewrite !(cell_at_update_other cols "Latency(msec)" "Packet Loss(%)") by discriminate.
  rewrite !(cell_at_update_other cols "Availability" "Packet Loss(%)") by discriminate.
  rewrite !(cell_at_update_other cols "Latency(msec)" "Availability") by discriminate.
  rewrite !coerced_notna.
  rewrite !(converts_update_other _ cols "Availability" "Latency(msec)") by discriminate.
  rewrite !(converts_update_other _ cols "Packet Loss(%)" "Latency(msec)") by discriminate.
  rewrite !(converts_update_other _ cols "Packet Loss(%)" "Availability") by discriminate.
  rewrite andb_true_r, andb_assoc. reflexivity.
Qed.


Lemma data2_clean_rows (df : frame) :
  Nat.leb 5 (List.length (rows df)) = true ->
  has_col "Packet Loss(%)" (availability_table df) = true ->
  has_col "Availability" (availability_table df) = true ->
  has_col "Latency(msec)" (availability_table df) = true ->
  data2_clean to_numeric df =
    Ok (mkFrame (columns (availability_table df))
          (map (coerce_metrics to_numeric (columns (availability_table df)))
             (filter (metrics_row_valid to_numeric (columns (availability_table df)))
                (rows (availability_table df))))).
Proof.
  intros Hlen Hpl Hav Hlat. unfold data2_clean, drop_leading_rows.
  rewrite Hlen. cbn [rbind]. fold (availability_table df).
  unfold assign_converted at 1. rewrite Hpl. cbn [rbind].
  unfold assign_converted at 1.
  rewrite (has_col_same_columns "Availability" _ (availability_table df))
    by reflexivity.
  rewrite Hav. cbn [rbind columns rows].
  unfold assign_converted at 1.
  rewrite (has_col_same_columns "Latency(msec)" _ (availability_table df))
    by reflexivity.
  rewrite Hlat. cbn [rbind columns rows].
  rewrite dropna_ok
    by (cbn [forallb];
        rewrite (has_col_same_columns "Packet Loss(%)" _ (availability_table df)),
          (has_col_same_columns "Availability" _ (availability_table df)),
          (has_col_same_columns "Latency(msec)" _ (availability_table df))
          by reflexivity;
        rewrite Hpl, Hav, Hlat; reflexivity).
  cbn [rbind columns rows]. do 2 f_equal.
  rewrite !map_map. rewrite filter_map_comm. f_equal.
  apply filter_ext. intros r. apply metrics_kept.
Qed.

End AvailabilityCleaner.



(** ** The file locator *)


Section MaxBy.

Context {A : Type} (key : A -> Q).



End MaxBy.


(** ** Summaries *)

Lemma select_map_mask {A B : Type} (p : A -> bool) (f : A -> B) (l : list A) :
  select (map p l) (map f l) = map f (filter p l).
Proof.
  induction l as [|a l IH]; simpl; [reflexivity|].
  destruct (p a); simpl; rewrite IH; reflexivity.
Qed.

Lemma mask_and_map {A : Type} (p q : A -> bool) (l : list A) :
  mask_and (map p l) (map q l) = map (fun a => p a && q a) l.
Proof.
  induction l as [|a l IH]; simpl; [reflexivity | rewrite IH; reflexivity].
Qed.

Lemma map_result_total {A B : Type} (f : A -> result B) (g : A -> B) (l : list A) :
  (forall a, In a l -> f a = Ok (g a)) -> map_result f l = Ok (map g l).
Proof.
  induction l as [|a l IH]; intros H; simpl; [reflexivity|].
  rewrite (H a) by (left; reflexivity). cbn [rbind].
  rewrite IH by (intros b Hb; apply H; right; exact Hb). reflexivity.
Qed.

Lemma summary_counts (l : list DowntimeSummary) :
  get_col "Downtime Count" (summary_table l)
  = Ok (map (fun s => Int (DowntimeCount s)) l).
Proof.
  unfold get_col, summary_table. cbn. rewrite map_map. reflexivity.
Qed.

Lemma summary_compare (f : cell -> result bool) (p : Z -> bool)
  (l : list DowntimeSummary) :
  (forall z, f (Int z) = Ok (p z)) ->
  map_result f (map (fun s => Int (DowntimeCount s)) l)
  = Ok (map (fun s => p (DowntimeCount s)) l).
Proof.
  intros Hf.
  rewrite <- (map_map (fun s => Int (DowntimeCount s))
                (fun c => match c with Int z => p z | _ => false end)).
  apply map_result_total. intros c Hin. apply in_map_iff in Hin.
  destruct Hin as [s [<- _]]. apply Hf.
Qed.

Lemma summary_records (l : list DowntimeSummary) :
  to_dict_records (summary_table l) = map summary_record l.
Proof.
  unfold to_dict_records, summary_table. cbn [columns rows].
  rewrite map_map. reflexivity.
Qed.

Lemma summary_index (p : DowntimeSummary -> bool) (l : list DowntimeSummary) :
  boolean_index (summary_table l) (map p l) = summary_table (filter p l).
Proof.
  unfold boolean_index, summary_table. cbn [columns rows].
  rewrite select_map_mask. reflexivity.
Qed.

Section CallbackFacts.

Variable to_datetime : cell -> option Z.

Lemma bucket_filter_summaries (v : option string) (l : list DowntimeSummary)
  (g : globals) :
  bucket_filter v (summary_table l) g
  = (Ok (summary_table (filter (fun s => bucket_keeps v (DowntimeCount s)) l)), g).
Proof.
  unfold bucket_filter, bucket_keeps.
  destruct (value_is v "1-3");
    [|destruct (value_is v "4-5");
      [|destruct (value_is v ">5"); [|destruct (value_is v ">10")]]];
    unfold bind, pure_op, ret; rewrite ?summary_counts.
  - rewrite (summary_compare _ (fun z => Z.leb z 3)) by reflexivity.
    rewrite summary_index. reflexivity.
  - rewrite (summary_compare _ (fun z => Z.ltb 3 z)) by reflexivity.
    rewrite (summary_compare _ (fun z => Z.leb z 5)) by reflexivity.
    rewrite mask_and_map, summary_index. reflexivity.
  - rewrite (summary_compare _ (fun z => Z.ltb 5 z)) by reflexivity.
    rewrite summary_index. reflexivity.
  - rewrite (summary_compare _ (fun z => Z.ltb 10 z)) by reflexivity.
    rewrite summary_index. reflexivity.
  - rewrite filter_all. reflexivity.
Qed.

End CallbackFacts.

(** ** Frame conditions of the callback *)

Lemma ret_leaves_tables {A : Type} (a : A) : leaves_tables (ret a).
Proof. intros g. reflexivity. Qed.

Lemma read_leaves_tables {A : Type} (field : globals -> A) : leaves_tables (read field).
Proof. intros g. reflexivity. Qed.

Lemma pure_op_leaves_tables {A : Type} (r : result A) : leaves_tables (pure_op r).
Proof. intros g. reflexivity. Qed.

Lemma bind_leaves_tables {A B : Type} (m : M A) (k : A -> M B) :
  leaves_tables m -> (forall a, leaves_tables (k a)) -> leaves_tables (bind m k).
Proof.
  intros Hm Hk g. unfold bind. specialize (Hm g).
  destruct (m g) as [[a|e] g']; simpl in Hm; subst g'; [apply Hk | reflexivity].
Qed.

(** Rebinding the table is visible: the frame condition is not automatic. *)
Lemma write_changes_tables :
  ~ leaves_tables (write_downtime_count (summary_table Samples.sample_summaries)).
Proof.
  intros H. specialize (H (mkGlobals (mkFrame [] []) (mkFrame [] []))).
  discriminate H.
Qed.

Ltac leaves_tables_step :=
  repeat first
    [ apply ret_leaves_tables
    | apply read_leaves_tables
    | apply pure_op_leaves_tables
    | apply bind_leaves_tables; [|intro] ].

Section CallbackFrame.

Variable to_datetime : cell -> option Z.

Lemma bucket_filter_leaves_tables (v : option string) (df : frame) :
  leaves_tables (bucket_filter v df).
Proof.
  unfold bucket_filter.
  repeat match goal with
         | |- context [if ?b then _ else _] => destruct b
         end; leaves_tables_step.
Qed.

Lemma date_filter_leaves_tables (s e : option string) (df : frame) :
  leaves_tables (date_filter to_datetime s e df).
Proof.
  unfold date_filter. destruct (truthy s && truthy e); leaves_tables_step.
Qed.

End CallbackFrame.

(** C8. Whatever the click count, the dates and the bucket value, and
    whether the call returns or raises, [filter_data] leaves the module's
    tables, the aggregated [downtime_count] among them, as they were. *)
Theorem filter_data_leaves_tables (to_datetime : cell -> option Z)
  (n_clicks : option Z) (start_date end_date downtime_value : option string)
  (g : globals) :
  snd (filter_data to_datetime n_clicks start_date end_date downtime_value g) = g
  /\ downtime_count
       (snd (filter_data to_datetime n_clicks start_date end_date downtime_value g))
     = downtime_count g.
Proof.
  assert (H : leaves_tables
                (filter_data to_datetime n_clicks start_date end_date downtime_value)).
  { unfold filter_data. destruct n_clicks.
    - apply bind_leaves_tables; [apply read_leaves_tables | intro].
      apply bind_leaves_tables; [apply bucket_filter_leaves_tables | intro].
      apply bind_leaves_tables; [apply date_filter_leaves_tables | intro].
      apply ret_leaves_tables.
    - leaves_tables_step. }
  rewrite (H g). split; reflexivity.
Qed.

(** C10. With no click yet, [filter_data] returns the records of the whole
    aggregated table, whatever the dates and the bucket value are: one
    record per row, and on a table of summaries the record of every summary,
    those the selected bucket would drop included. *)
Theorem filter_data_before_click (to_datetime : cell -> option Z)
  (start_date end_date downtime_value : option string) (g : globals) :
  filter_data to_datetime None start_date end_date downtime_value g
  = (Ok (to_dict_records (downtime_count g)), g)
  /\ List.length (to_dict_records (downtime_count g))
     = List.length (rows (downtime_count g))
  /\ forall l,
       downtime_count g = summary_table l ->
       fst (filter_data to_datetime None start_date end_date downtime_value g)
       = Ok (map summary_record l).
Proof.
  split; [reflexivity|]. split.
  - unfold to_dict_records. apply length_map.
  - intros l Hl. unfold filter_data, bind, read, ret. cbn [fst].
    rewrite Hl, summary_records. reflexivity.
Qed.

Lemma filter_data_on_summaries (to_datetime : cell -> option Z) (g : globals)
  (l : list DowntimeSummary) (n : Z) (start_date end_date downtime_value : option string) :
  downtime_count g = summary_table l ->
  truthy start_date && truthy end_date = false ->
  filter_data to_datetime (Some n) start_date end_date downtime_value g
  = (Ok (map summary_record
           (filter (fun s => bucket_keeps downtime_value (DowntimeCount s)) l)), g).
Proof.
  intros Htable Hdates.
  unfold filter_data, bind at 1, read. rewrite Htable.
  unfold bind at 1. rewrite bucket_filter_summaries.
  unfold bind, date_filter. rewrite Hdates. unfold ret.
  rewrite summary_records. reflexivity.
Qed.

Lemma value_is_other (v : option string) (label : string) :
  v <> Some label -> value_is v label = false.
Proof.
  intros Hne. destruct v as [str|]; [|reflexivity].
  simpl. apply String.eqb_neq. congruence.
Qed.

(** C3. After a click and without a full date range, [filter_data] on a
    table of summaries returns exactly the summaries whose count satisfies
    the bucket of the dropdown value, in table order: at most 3 for ["1-3"],
    above 3 and at most 5 for ["4-5"], above 5 for [">5"], above 10 for
    [">10"], and all of them for any other value.  On the summaries
    A:2, B:4, C:6, D:11 the four buckets return A; B; C and D; D. *)
Theorem filter_data_bucket (to_datetime : cell -> option Z) (g : globals)
  (l : list DowntimeSummary) (n : Z) (start_date end_date downtime_value : option string) :
  downtime_count g = summary_table l ->
  truthy start_date && truthy end_date = false ->
  bucket_filter downtime_value (summary_table l) g
  = (Ok (summary_table
           (filter (fun s => bucket_keeps downtime_value (DowntimeCount s)) l)), g)
  /\ filter_data to_datetime (Some n) start_date end_date downtime_value g
     = (Ok (map summary_record
              (filter (fun s => bucket_keeps downtime_value (DowntimeCount s)) l)), g)
  /\ (forall c, bucket_keeps (Some "1-3") c = true <-> (c <= 3)%Z)
  /\ (forall c, bucket_keeps (Some "4-5") c = true <-> (3 < c <= 5)%Z)
  /\ (forall c, bucket_keeps (Some ">5") c = true <-> (5 < c)%Z)
  /\ (forall c, bucket_keeps (Some ">10") c = true <-> (10 < c)%Z)
  /\ (downtime_value <> Some "1-3" -> downtime_value <> Some "4-5" ->
      downtime_value <> Some ">5" -> downtime_value <> Some ">10" ->
      filter_data to_datetime (Some n) start_date end_date downtime_value g
      = (Ok (map summary_record l), g))
  /\ (let sample := mkGlobals (merged_df g) (summary_table Samples.sample_summaries) in
      let run v := fst (filter_data to_datetime (Some n) start_date end_date v sample) in
      run (Some "1-3") = Ok [summary_record (mkSummary (Str "A") 2)]
      /\ run (Some "4-5") = Ok [summary_record (mkSummary (Str "B") 4)]
      /\ run (Some ">5")
         = Ok [summary_record (mkSummary (Str "C") 6);
               summary_record (mkSummary (Str "D") 11)]
      /\ run (Some ">10") = Ok [summary_record (mkSummary (Str "D") 11)]
      /\ run (Some "all") = Ok (map summary_record Samples.sample_summaries)
      /\ run None = Ok (map summary_record Samples.sample_summaries)).
Proof.
  intros Htable Hdates.
  split; [apply bucket_filter_summaries|].
  split; [apply filter_data_on_summaries; assumption|].
  split; [intro c; unfold bucket_keeps; cbn; apply Z.leb_le|].
  split; [intro c; unfold bucket_keeps; cbn;
          rewrite andb_true_iff, Z.ltb_lt, Z.leb_le; reflexivity|].
  split; [intro c; unfold bucket_keeps; cbn; apply Z.ltb_lt|].
  split; [intro c; unfold bucket_keeps; cbn; apply Z.ltb_lt|].
  split.
  - intros H1 H2 H3 H4.
    rewrite (filter_data_on_summaries to_datetime g l) by assumption.
    unfold bucket_keeps. rewrite !value_is_other by assumption.
    rewrite filter_all. reflexivity.
  - cbv zeta.
    repeat split;
      rewrite (filter_data_on_summaries to_datetime _ Samples.sample_summaries)
        by (reflexivity || assumption);
      reflexivity.
Qed.

Lemma filter_data_bucket_witness :
  let g := mkGlobals (mkFrame [] []) (summary_table Samples.sample_summaries) in
  downtime_count g = summary_table Samples.sample_summaries
  /\ truthy (Some "2024-01-01") && truthy None = false
  /\ filter_data Samples.sample_to_datetime (Some 1%Z) (Some "2024-01-01") None
       (Some "4-5") g
     = (Ok [summary_record (mkSummary (Str "B") 4)], g).
Proof.
  cbv zeta. split; [reflexivity|]. split; [reflexivity|].
  exact (proj1 (proj2 (filter_data_bucket Samples.sample_to_datetime
                         (mkGlobals (mkFrame [] []) (summary_table Samples.sample_summaries))
                         Samples.sample_summaries 1%Z (Some "2024-01-01") None (Some "4-5")
                         eq_refl eq_refl))).
Defined.

(** ** The left join *)

Lemma select_columns_inv (names : list string) (df right : frame) :
  select_columns names df = Ok right ->
  right = mkFrame names
            (map (fun r => map (fun c => cell_at (columns df) c r) names) (rows df)).
Proof.
  unfold select_columns.
  destruct (find (fun c => negb (has_col c df)) names); [discriminate|].
  intros H. injection H as <-. reflexivity.
Qed.

Lemma merge_left_inv (key : string) (left right merged : frame) :
  merge_left key left right = Ok merged ->
  let rmask := map (fun c => negb (String.eqb c key)) (columns right) in
  has_col key left = true
  /\ columns merged =
       map (overlap_suffix (columns right) key "_x") (columns left)
       ++ map (overlap_suffix (columns left) key "_y") (select rmask (columns right))
  /\ rows merged = flat_map (attach key left right rmask) (rows left).
Proof.
  unfold merge_left.
  destruct (has_col key left); [|discriminate].
  destruct (has_col key right); [|discriminate].
  cbn [negb orb]. intros H. injection H as <-. cbn [columns rows].
  repeat split.
Qed.

Lemma attach_availability (alarms avail : frame) (l : list cell) :
  let right :=
    mkFrame ["IP Address"; "Availability"]
      (map (fun r => map (fun c => cell_at (columns avail) c r)
                       ["IP Address"; "Availability"]) (rows avail)) in
  attach "IP Address" alarms right [false; true] l = joined_rows alarms avail l.
Proof.
  cbv zeta. unfold attach, joined_rows, ip_matches. cbn [columns rows].
  rewrite filter_map_comm.
  match goal with
  | |- context [filter ?p (rows avail)] =>
      rewrite (filter_ext p
                 (fun r => cell_eqb (cell_at (columns avail) "IP Address" r)
                             (cell_at (columns alarms) "IP Address" l)))
        by reflexivity
  end.
  destruct (filter _ (rows avail)) as [|m ms]; [reflexivity|].
  cbn [map]. rewrite map_map. reflexivity.
Qed.

Lemma merged_rows (alarms avail right merged : frame) :
  select_columns ["IP Address"; "Availability"] avail = Ok right ->
  merge_left "IP Address" alarms right = Ok merged ->
  rows merged = flat_map (joined_rows alarms avail) (rows alarms).
Proof.
  intros Hsel Hmerge. apply select_columns_inv in Hsel. subst right.
  apply merge_left_inv in Hmerge. destruct Hmerge as [_ [_ Hrows]].
  rewrite Hrows. cbn [columns map String.eqb Ascii.eqb Bool.eqb negb].
  apply flat_map_ext. intros l. apply attach_availability.
Qed.


Lemma joined_rows_retain (alarms avail : frame) (l : list cell) :
  exists v vs, joined_rows alarms avail l = (l ++ [v]) :: map (fun w => l ++ [w]) vs.
Proof.
  unfold joined_rows. destruct (ip_matches alarms avail l) as [|m ms].
  - exists NaN, []. reflexivity.
  - exists (cell_at (columns avail) "Availability" m),
      (map (cell_at (columns avail) "Availability") ms).
    cbn [map]. rewrite map_map. reflexivity.
Qed.






(** ** The joined table *)

Lemma rbind_ok_inv {A B : Type} (m : result A) (k : A -> result B) (b : B) :
  rbind m k = Ok b -> exists a, m = Ok a /\ k a = Ok b.
Proof.
  destruct m as [a|e]; simpl; [|discriminate].
  intros H. exists a. split; [reflexivity | exact H].
Qed.

Lemma dropna_inv (subset : list string) (df out : frame) :
  dropna subset df = Ok out -> forallb (fun c => has_col c df) subset = true.
Proof.
  unfold dropna.
  destruct (find (fun c => negb (has_col c df)) subset) eqn:E; [discriminate|].
  intros _. apply forallb_forall. intros c Hin.
  pose proof (find_none _ _ E c Hin) as H. simpl in H.
  destruct (has_col c df); [reflexivity | discriminate].
Qed.

Lemma cell_at_notna (cols : list string) (c : string) (r : list cell) :
  notna (cell_at cols c r) = true -> lookup_cell cols r c = Some (cell_at cols c r).
Proof.
  unfold cell_at. destruct (lookup_cell cols r c); [reflexivity | discriminate].
Qed.

Lemma lookup_app (cols cols' : list string) (r r' : list cell) (c : string) (v : cell) :
  lookup_cell cols r c = Some v -> lookup_cell (cols ++ cols') (r ++ r') c = Some v.
Proof.
  revert r. induction cols as [|k cols IH]; intros [|x r]; simpl; try discriminate.
  destruct (String.eqb k c); [trivial | apply IH].
Qed.

Lemma lookup_relabel (f : string -> string) (cols : list string) (r : list cell)
  (c : string) :
  (forall k, String.eqb (f k) c = String.eqb k c) ->
  lookup_cell (map f cols) r c = lookup_cell cols r c.
Proof.
  intros Hf. revert r. induction cols as [|k cols IH]; intros [|x r]; simpl;
    try reflexivity.
  rewrite Hf. destruct (String.eqb k c); [reflexivity | apply IH].
Qed.

(** The suffixes of the join leave the labels the group-by reads alone. *)
Lemma overlap_suffix_keeps (others : list string) (k c : string) :
  (forall o, In o others -> String.eqb o c = false) ->
  (forall o, In o others -> String.eqb (o ++ "_x") c = false) ->
  String.eqb (overlap_suffix others "IP Address" "_x" k) c = String.eqb k c.
Proof.
  intros Hc Hx. unfold overlap_suffix.
  destruct (negb (String.eqb k "IP Address")); cbn [andb]; [|reflexivity].
  destruct (mem_label k others) eqn:E; [|reflexivity].
  unfold mem_label in E. apply existsb_exists in E. destruct E as [o [Hin Ho]].
  apply String.eqb_eq in Ho. subst o. rewrite Hx, Hc by exact Hin. reflexivity.
Qed.

Lemma merged_cell (alarms right merged : frame) (l extra : list cell) (c : string)
  (v : cell) :
  columns right = ["IP Address"; "Availability"] ->
  merge_left "IP Address" alarms right = Ok merged ->
  c = "Node Alias" \/ c = "Alarm Time" ->
  lookup_cell (columns alarms) l c = Some v ->
  cell_at (columns merged) c (l ++ extra) = v.
Proof.
  intros Hcols Hmerge Hc Hl. apply merge_left_inv in Hmerge.
  destruct Hmerge as [_ [Hmcols _]]. rewrite Hmcols, Hcols. unfold cell_at.
  rewrite (lookup_app _ _ _ _ _ v); [reflexivity|].
  rewrite lookup_relabel; [exact Hl|].
  intros k. apply overlap_suffix_keeps; intros o Ho;
    destruct Hc as [-> | ->];
    repeat (destruct Ho as [<-|Ho]; [reflexivity|]); destruct Ho.
Qed.

Section JoinedTable.

Variable to_datetime : cell -> option Z.
Variable to_numeric : cell -> option Q.

Lemma data1_clean_inv (df out : frame) :
  data1_clean to_datetime df = Ok out ->
  has_col "Node Alias" (alarm_table df) = true
  /\ has_col "Alarm Time" (alarm_table df) = true.
Proof.
  unfold data1_clean. fold (alarm_table df). intros H.
  apply rbind_ok_inv in H. destruct H as [d [Hd _]].
  apply dropna_inv in Hd. cbn [forallb] in Hd.
  apply andb_prop in Hd. destruct Hd as [Hna Hat].
  apply andb_prop in Hat. destruct Hat as [Hat _]. split; assumption.
Qed.

(** Every cleaned alarm row carries a node alias and a timestamp. *)
Lemma data1_clean_cells (df out : frame) (r : list cell) :
  data1_clean to_datetime df = Ok out ->
  In r (rows out) ->
  exists a t,
    lookup_cell (columns out) r "Node Alias" = Some a
    /\ notna a = true
    /\ lookup_cell (columns out) r "Alarm Time" = Some (Time t).
Proof.
  intros Hout Hin. destruct (data1_clean_inv _ _ Hout) as [Hna Hat].
  rewrite (data1_clean_rows to_datetime df Hna Hat) in Hout.
  injection Hout as <-. cbn [columns rows] in *.
  apply in_map_iff in Hin. destruct Hin as [r0 [<- Hin]].
  apply filter_In in Hin. destruct Hin as [_ Hv]. unfold alarm_row_valid in Hv.
  apply andb_prop in Hv. destruct Hv as [Hv Hconv].
  apply andb_prop in Hv. destruct Hv as [Halias _].
  destruct (converted_is_time to_datetime _ _ Hconv) as [t Ht].
  exists (cell_at (columns (alarm_table df)) "Node Alias" r0), t.
  split; [|split].
  - rewrite lookup_update_other by discriminate. apply cell_at_notna. exact Halias.
  - exact Halias.
  - rewrite <- Ht. apply cell_at_notna. rewrite Ht. reflexivity.
Qed.

Lemma startup_inv (df1 df2 : frame) (g : globals) :
  startup to_datetime to_numeric df1 df2 = Ok g ->
  exists alarms avail right,
    data1_clean to_datetime df1 = Ok alarms
    /\ data2_clean to_numeric df2 = Ok avail
    /\ select_columns ["IP Address"; "Availability"] avail = Ok right
    /\ merge_left "IP Address" alarms right = Ok (merged_df g)
    /\ groupby_nunique "Node Alias" "Alarm Time" "Downtime Count" (merged_df g)
       = Ok (downtime_count g).
Proof.
  unfold startup. intros H.
  apply rbind_ok_inv in H. destruct H as [alarms [Ha H]].
  apply rbind_ok_inv in H. destruct H as [avail [Hb H]].
  apply rbind_ok_inv in H. destruct H as [right [Hr H]].
  apply rbind_ok_inv in H. destruct H as [merged [Hm H]].
  apply rbind_ok_inv in H. destruct H as [counts [Hc H]].
  injection H as <-. cbn [merged_df downtime_count].
  exists alarms, avail, right. repeat split; assumption.
Qed.

(** Every joined row is a cleaned alarm row with an availability attached,
    and shows that alarm's node alias and timestamp. *)
Lemma joined_row_cells (df1 df2 : frame) (g : globals) (m : list cell) :
  startup to_datetime to_numeric df1 df2 = Ok g ->
  In m (rows (merged_df g)) ->
  exists alarms l t,
    data1_clean to_datetime df1 = Ok alarms
    /\ In l (rows alarms)
    /\ cell_at (columns (merged_df g)) "Node Alias" m
       = cell_at (columns alarms) "Node Alias" l
    /\ notna (cell_at (columns (merged_df g)) "Node Alias" m) = true
    /\ cell_at (columns (merged_df g)) "Alarm Time" m = Time t.
Proof.
  intros Hstart Hin. apply startup_inv in Hstart.
  destruct Hstart as [alarms [avail [right [Ha [_ [Hsel [Hmerge _]]]]]]].
  rewrite (merged_rows _ _ _ _ Hsel Hmerge) in Hin.
  apply in_flat_map in Hin. destruct Hin as [l [Hl Hm]].
  assert (Hshape : exists v, m = l ++ [v]).
  { destruct (joined_rows_retain alarms avail l) as [v [vs Hj]].
    rewrite Hj in Hm. destruct Hm as [<-|Hm]; [exists v; reflexivity|].
    apply in_map_iff in Hm. destruct Hm as [w [<- _]]. exists w. reflexivity. }
  destruct Hshape as [v ->].
  destruct (data1_clean_cells _ _ _ Ha Hl) as [a [t [Hla [Hna Hlt]]]].
  assert (Hcols : columns right = ["IP Address"; "Availability"])
    by (apply select_columns_inv in Hsel; subst right; reflexivity).
  exists alarms, l, t. split; [exact Ha|]. split; [exact Hl|].
  rewrite (merged_cell _ _ _ _ _ "Node Alias" a Hcols Hmerge)
    by (auto || exact Hla).
  rewrite (merged_cell _ _ _ _ _ "Alarm Time" (Time t) Hcols Hmerge)
    by (auto || exact Hlt).
  unfold cell_at. rewrite Hla. repeat split. exact Hna.
Qed.

End JoinedTable.

(** ** The group-by *)

Lemma insert_sorted_perm (c : cell) (l : list cell) :
  Permutation (insert_sorted c l) (c :: l).
Proof.
  induction l as [|x l IH]; simpl; [apply Permutation_refl|].
  destruct (cell_leb c x); [apply Permutation_refl|].
  eapply Permutation_trans; [apply perm_skip; exact IH | apply perm_swap].
Qed.

Lemma sort_cells_perm (l : list cell) : Permutation (sort_cells l) l.
Proof.
  induction l as [|x l IH]; simpl; [apply Permutation_refl|].
  eapply Permutation_trans; [apply insert_sorted_perm | apply perm_skip; exact IH].
Qed.

Lemma group_keys_NoDup (key : string) (df : frame) : NoDup (group_keys key df).
Proof.
  unfold group_keys.
  eapply Permutation_NoDup; [apply Permutation_sym; apply sort_cells_perm|].
  apply NoDup_nodup.
Qed.

Lemma group_keys_In (key : string) (df : frame) (k : cell) :
  In k (group_keys key df)
  <-> notna k = true /\ exists r, In r (rows df) /\ cell_at (columns df) key r = k.
Proof.
  unfold group_keys. split.
  - intros H. apply (Permutation_in _ (sort_cells_perm _)) in H.
    apply nodup_In, filter_In in H. destruct H as [H Hk].
    apply in_map_iff in H. destruct H as [r [Hr Hin]].
    split; [exact Hk | exists r; split; assumption].
  - intros [Hk [r [Hin Hr]]].
    apply (Permutation_in _ (Permutation_sym (sort_cells_perm _))).
    apply nodup_In, filter_In. split; [|exact Hk].
    apply in_map_iff. exists r. split; assumption.
Qed.


Lemma groupby_nunique_inv (merged counts : frame) :
  groupby_nunique "Node Alias" "Alarm Time" "Downtime Count" merged = Ok counts ->
  counts = summary_table (summaries_of merged).
Proof.
  unfold groupby_nunique, get_col.
  destruct (has_col "Node Alias" merged); [|discriminate].
  destruct (has_col "Alarm Time" merged); [|discriminate].
  cbn [rbind]. intros H. injection H as <-.
  unfold summary_table, summaries_of. rewrite map_map. reflexivity.
Qed.

Lemma summaries_of_aliases (merged : frame) :
  map NodeAlias (summaries_of merged) = group_keys "Node Alias" merged.
Proof.
  unfold summaries_of. rewrite map_map. cbn [NodeAlias]. apply map_id.
Qed.


(** ** The aggregated table *)







(** ** The date range *)

Lemma date_filter_without_column (to_datetime : cell -> option Z)
  (start_date end_date : option string) (df : frame) (g : globals) :
  truthy start_date = true ->
  truthy end_date = true ->
  has_col "Alarm Time" df = false ->
  date_filter to_datetime start_date end_date df g = (Raise (KeyError "Alarm Time"), g).
Proof.
  intros Hs He Hcol. unfold date_filter. rewrite Hs, He. cbn [andb].
  unfold bind at 1, pure_op at 1, get_col. rewrite Hcol. reflexivity.
Qed.

(** C4. The aggregated table the start-up code builds has no [Alarm Time]
    column, so with both dates given the date-range step of [filter_data]
    raises [KeyError] on it, whatever the bucket value: after a click the
    callback raises, and before any click it returns the whole table; no
    summary is ever selected by date. *)
Theorem filter_data_date_range_raises (to_datetime : cell -> option Z)
  (to_numeric : cell -> option Q) (df1 df2 : frame) (g : globals)
  (start_date end_date : option string) :
  startup to_datetime to_numeric df1 df2 = Ok g ->
  truthy start_date = true ->
  truthy end_date = true ->
  columns (downtime_count g) = ["Node Alias"; "Downtime Count"]
  /\ has_col "Alarm Time" (downtime_count g) = false
  /\ (forall n downtime_value,
        filter_data to_datetime (Some n) start_date end_date downtime_value g
        = (Raise (KeyError "Alarm Time"), g))
  /\ (forall downtime_value,
        filter_data to_datetime None start_date end_date downtime_value g
        = (Ok (to_dict_records (downtime_count g)), g)).
Proof.
  intros Hstart Hs He.
  destruct (startup_inv _ _ _ _ _ Hstart)
    as [alarms [avail [right [_ [_ [_ [_ Hgroup]]]]]]].
  apply groupby_nunique_inv in Hgroup.
  split; [rewrite Hgroup; reflexivity|].
  split; [rewrite Hgroup; reflexivity|].
  split; [|reflexivity].
  intros n v. unfold filter_data, bind at 1, read. rewrite Hgroup.
  unfold bind at 1. rewrite bucket_filter_summaries.
  unfold bind at 1. rewrite date_filter_without_column by (assumption || reflexivity).
  reflexivity.
Qed.

Lemma filter_data_date_range_raises_witness :
  let g := mkGlobals Samples.merged
             (summary_table [mkSummary (Str "A") 2; mkSummary (Str "B") 1]) in
  startup Samples.sample_to_datetime Samples.sample_to_numeric
    Samples.alarm_log Samples.availability_report = Ok g
  /\ truthy (Some "2024-01-01") = true
  /\ truthy (Some "2024-01-02") = true
  /\ filter_data Samples.sample_to_datetime (Some 1%Z) (Some "2024-01-01")
       (Some "2024-01-02") (Some "1-3") g
     = (Raise (KeyError "Alarm Time"), g).
Proof.
  cbv zeta. split; [reflexivity|]. split; [reflexivity|]. split; [reflexivity|].
  apply (filter_data_date_range_raises Samples.sample_to_datetime
           Samples.sample_to_numeric Samples.alarm_log Samples.availability_report
           _ (Some "2024-01-01") (Some "2024-01-02") eq_refl eq_refl eq_refl).
Defined.

(** ** Error behaviour of the cleaners *)




(** ** What the cleaners keep *)

Lemma columns_mk (cols : list string) (rs : list (list cell)) :
  columns (mkFrame cols rs) = cols.
Proof. reflexivity. Qed.

Lemma rows_mk (cols : list string) (rs : list (list cell)) :
  rows (mkFrame cols rs) = rs.
Proof. reflexivity. Qed.

Lemma select_mask_filter {A : Type} (p : A -> bool) (l : list A) :
  select (map p l) l = filter p l.
Proof.
  induction l as [|a l IH]; simpl; [reflexivity|].
  destruct (p a); rewrite IH; reflexivity.
Qed.

Lemma select_map {A B : Type} (f : A -> B) (mask : list bool) (l : list A) :
  select mask (map f l) = map f (select mask l).
Proof.
  revert l. induction mask as [|b mask IH]; intros [|a l]; simpl; try reflexivity.
  destruct b; simpl; rewrite IH; reflexivity.
Qed.

(** Masking columns out leaves the cells under every other label alone. *)
Lemma lookup_select (mask : list bool) (cols : list string) (r : list cell)
  (c : string) :
  Forall2 (fun b k => b = false -> k <> c) mask cols ->
  lookup_cell (select mask cols) (select mask r) c = lookup_cell cols r c.
Proof.
  intros H. revert r. induction H as [|b k mask cols Hb H IH]; intros r.
  - reflexivity.
  - destruct r as [|v r]; [destruct b; simpl; [reflexivity|]|].
    + destruct (select mask cols); reflexivity.
    + simpl. destruct b; simpl.
      * destruct (String.eqb k c); [reflexivity | apply IH].
      * destruct (String.eqb k c) eqn:E; [|apply IH].
        apply String.eqb_eq in E. exfalso. apply Hb; [reflexivity | exact E].
Qed.

Lemma drop_mask_keeps (names : list string) (f : string -> string)
  (cols : list string) (c : string) :
  (forall k, mem_label k names = true -> f k <> c) ->
  Forall2 (fun b k => b = false -> k <> c)
    (map (fun k => negb (mem_label k names)) cols) (map f cols).
Proof.
  intros H. induction cols as [|k cols IH]; simpl; constructor; [|exact IH].
  intros Hb. apply H. destruct (mem_label k names); [reflexivity | discriminate].
Qed.

Lemma filter_length_le {A : Type} (p : A -> bool) (l : list A) :
  List.length (filter p l) <= List.length l.
Proof.
  induction l as [|a l IH]; simpl; [lia|]. destruct (p a); simpl; lia.
Qed.

Lemma data1_clean_shape (to_datetime : cell -> option Z) (df out : frame) :
  data1_clean to_datetime df = Ok out ->
  out = mkFrame (columns (alarm_table df))
          (map (update_cell (columns (alarm_table df)) "Alarm Time"
                  (to_datetime_coerce to_datetime))
             (filter (alarm_row_valid to_datetime (columns (alarm_table df)))
                (rows (alarm_table df)))).
Proof.
  intros Hout. destruct (data1_clean_inv _ _ _ Hout) as [Hna Hat].
  rewrite (data1_clean_rows to_datetime df Hna Hat) in Hout. congruence.
Qed.

(** X3. The frame [data1_clean] returns has the renamed labels of the
    file's columns, in order, without the serial number, clear time,
    duration, description and host name; none of the five is left, and a
    file that lacks them is cleaned all the same. *)
Theorem data1_clean_columns (to_datetime : cell -> option Z) (df out : frame) :
  data1_clean to_datetime df = Ok out ->
  columns out
  = filter (fun c => negb (mem_label c data1_dropped))
      (map (rename_label data1_renames) (columns df))
  /\ (forall c, In c (columns out) -> ~ In c data1_dropped)
  /\ (forall c, In c (columns df) ->
        ~ In (rename_label data1_renames c) data1_dropped ->
        In (rename_label data1_renames c) (columns out)).
Proof.
  intros Hout. rewrite (data1_clean_shape _ _ _ Hout), columns_mk.
  assert (Hcols : columns (alarm_table df)
                  = filter (fun c => negb (mem_label c data1_dropped))
                      (map (rename_label data1_renames) (columns df))).
  { unfold alarm_table, drop_columns, rename. rewrite !columns_mk.
    apply select_mask_filter. }
  rewrite Hcols. split; [reflexivity|]. split.
  - intros c Hin Hdrop. apply filter_In in Hin. destruct Hin as [_ Hkeep].
    assert (Hmem : mem_label c data1_dropped = true).
    { unfold mem_label. apply existsb_exists. exists c.
      split; [exact Hdrop | apply String.eqb_refl]. }
    rewrite Hmem in Hkeep. discriminate.
  - intros c Hin Hkeep. apply filter_In. split; [apply in_map; exact Hin|].
    destruct (mem_label (rename_label data1_renames c) data1_dropped) eqn:E;
      [|reflexivity].
    exfalso. apply Hkeep. unfold mem_label in E. apply existsb_exists in E.
    destruct E as [x [Hx Heq]]. apply String.eqb_eq in Heq. subst x. exact Hx.
Qed.

Lemma data1_clean_columns_witness :
  exists out,
    data1_clean Samples.sample_to_datetime Samples.alarm_log = Ok out
    /\ columns out = ["IP Address"; "Node Alias"; "Event"; "Alarm Time"].
Proof.
  exists Samples.cleaned_alarms. split; [reflexivity|].
  rewrite (proj1 (data1_clean_columns Samples.sample_to_datetime Samples.alarm_log
                    Samples.cleaned_alarms eq_refl)).
  reflexivity.
Defined.



Lemma assign_converted_inv (c : string) (conv : cell -> cell) (df out : frame) :
  assign_converted c conv df = Ok out ->
  has_col c df = true /\ columns out = columns df.
Proof.
  unfold assign_converted. destruct (has_col c df); [|discriminate].
  intros H. injection H as <-. split; reflexivity.
Qed.

Lemma data2_clean_inv (to_numeric : cell -> option Q) (df out : frame) :
  data2_clean to_numeric df = Ok out ->
  Nat.leb 5 (List.length (rows df)) = true
  /\ has_col "Packet Loss(%)" (availability_table df) = true
  /\ has_col "Availability" (availability_table df) = true
  /\ has_col "Latency(msec)" (availability_table df) = true.
Proof.
  unfold data2_clean, drop_leading_rows. intros H.
  destruct (Nat.leb 5 (List.length (rows df))); [|discriminate].
  cbn [rbind] in H. fold (availability_table df) in H.
  apply rbind_ok_inv in H. destruct H as [d1 [H1 H]].
  apply rbind_ok_inv in H. destruct H as [d2 [H2 H]].
  apply rbind_ok_inv in H. destruct H as [d3 [H3 _]].
  apply assign_converted_inv in H1. destruct H1 as [Hpl Hc1].
  apply assign_converted_inv in H2. destruct H2 as [Hav Hc2].
  apply assign_converted_inv in H3. destruct H3 as [Hlat Hc3].
  rewrite (has_col_same_columns _ d1 (availability_table df)) in Hav by exact Hc1.
  rewrite (has_col_same_columns _ d2 (availability_table df)) in Hlat by congruence.
  repeat split; assumption.
Qed.

Lemma data2_clean_shape (to_numeric : cell -> option Q) (df out : frame) :
  data2_clean to_numeric df = Ok out ->
  out = mkFrame (columns (availability_table df))
          (map (coerce_metrics to_numeric (columns (availability_table df)))
             (filter (metrics_row_valid to_numeric (columns (availability_table df)))
                (rows (availability_table df)))).
Proof.
  intros Hout. destruct (data2_clean_inv _ _ _ Hout) as [Hlen [Hpl [Hav Hlat]]].
  rewrite (data2_clean_rows to_numeric df Hlen Hpl Hav Hlat) in Hout. congruence.
Qed.

Lemma availability_table_columns (df : frame) :
  columns (availability_table df)
  = map (rename_label data2_renames)
      (filter (fun c => negb (mem_label c ["Unnamed: 2"; "Unnamed: 3"])) (columns df)).
Proof.
  unfold availability_table, rename, drop_columns. rewrite !columns_mk.
  rewrite select_mask_filter. reflexivity.
Qed.

Lemma availability_table_rows (df : frame) :
  rows (availability_table df)
  = map (select (map (fun k => negb (mem_label k ["Unnamed: 2"; "Unnamed: 3"]))
                   (columns df)))
      (skipn 5 (rows df)).
Proof. reflexivity. Qed.

Lemma availability_table_lookup (df : frame) (r : list cell) (c : string) :
  mem_label c ["Unnamed: 2"; "Unnamed: 3"] = false ->
  lookup_cell (columns (availability_table df))
    (select (map (fun k => negb (mem_label k ["Unnamed: 2"; "Unnamed: 3"])) (columns df))
       r) c
  = lookup_cell (map (rename_label data2_renames) (columns df)) r c.
Proof.
  intros Hc. unfold availability_table, rename, drop_columns. rewrite !columns_mk.
  rewrite <- select_map. apply lookup_select. apply drop_mask_keeps.
  intros k Hk Heq. unfold mem_label in Hk. apply existsb_exists in Hk.
  destruct Hk as [x [Hx Hkx]]. apply String.eqb_eq in Hkx. subst x.
  assert (Hren : rename_label data2_renames k = k)
    by (destruct Hx as [<-|[<-|[]]]; reflexivity).
  rewrite Hren in Heq. subst c.
  assert (Hmem : mem_label k ["Unnamed: 2"; "Unnamed: 3"] = true)
    by (destruct Hx as [<-|[<-|[]]]; reflexivity).
  congruence.
Qed.

(** X5. The frame [data2_clean] returns has the renamed labels of the
    report's columns without the two unused ones; it holds at most the rows
    that follow the five leading ones, and each of its rows is one of those:
    under every label but the three metrics the cell is the report's cell,
    and each metric is the report's cell coerced. *)
Theorem data2_clean_rows_from_report (to_numeric : cell -> option Q) (df out : frame) :
  data2_clean to_numeric df = Ok out ->
  columns out
  = map (rename_label data2_renames)
      (filter (fun c => negb (mem_label c ["Unnamed: 2"; "Unnamed: 3"])) (columns df))
  /\ List.length (rows out) + 5 <= List.length (rows df)
  /\ forall r', In r' (rows out) ->
       exists r,
         In r (skipn 5 (rows df))
         /\ forall c,
              mem_label c ["Unnamed: 2"; "Unnamed: 3"] = false ->
              lookup_cell (columns out) r' c
              = if mem_label c ["Packet Loss(%)"; "Availability"; "Latency(msec)"]
                then option_map (to_numeric_coerce to_numeric)
                       (lookup_cell (map (rename_label data2_renames) (columns df)) r c)
                else lookup_cell (map (rename_label data2_renames) (columns df)) r c.
Proof.
  intros Hout. destruct (data2_clean_inv _ _ _ Hout) as [Hlen _].
  rewrite (data2_clean_shape _ _ _ Hout), !columns_mk, !rows_mk.
  split; [apply availability_table_columns|]. split.
  - rewrite length_map.
    pose proof (filter_length_le
                  (metrics_row_valid to_numeric (columns (availability_table df)))
                  (rows (availability_table df))) as Hle.
    assert (Hrows : List.length (rows (availability_table df))
                    = List.length (rows df) - 5)
      by (rewrite availability_table_rows, length_map, length_skipn; reflexivity).
    apply Nat.leb_le in Hlen. lia.
  - intros r' Hin. apply in_map_iff in Hin. destruct Hin as [r0 [<- Hin]].
    apply filter_In in Hin. destruct Hin as [Hin _].
    rewrite availability_table_rows in Hin. apply in_map_iff in Hin.
    destruct Hin as [r [<- Hin]].
    exists r. split; [exact Hin|]. intros c Hc. unfold coerce_metrics.
    destruct (String.eqb c "Latency(msec)") eqn:Elat.
    { apply String.eqb_eq in Elat. subst c. cbn [mem_label existsb String.eqb
        Ascii.eqb Bool.eqb orb andb].
      rewrite lookup_update_same, !lookup_update_other by discriminate.
      rewrite availability_table_lookup by reflexivity. reflexivity. }
    apply String.eqb_neq in Elat. rewrite lookup_update_other by exact Elat.
    destruct (String.eqb c "Availability") eqn:Eav.
    { apply String.eqb_eq in Eav. subst c. cbn [mem_label existsb String.eqb
        Ascii.eqb Bool.eqb orb andb].
      rewrite lookup_update_same, !lookup_update_other by discriminate.
      rewrite availability_table_lookup by reflexivity. reflexivity. }
    apply String.eqb_neq in Eav. rewrite lookup_update_other by exact Eav.
    destruct (String.eqb c "Packet Loss(%)") eqn:Epl.
    { apply String.eqb_eq in Epl. subst c. cbn [mem_label existsb String.eqb
        Ascii.eqb Bool.eqb orb andb].
      rewrite lookup_update_same.
      rewrite availability_table_lookup by reflexivity. reflexivity. }
    apply String.eqb_neq in Epl. rewrite lookup_update_other by exact Epl.
    rewrite availability_table_lookup by exact Hc.
    unfold mem_label at 1. cbn [existsb].
    rewrite (proj2 (String.eqb_neq c "Packet Loss(%)") Epl),
      (proj2 (String.eqb_neq c "Availability") Eav),
      (proj2 (String.eqb_neq c "Latency(msec)") Elat).
    reflexivity.
Qed.

Lemma data2_clean_rows_from_report_witness :
  exists out,
    data2_clean Samples.sample_to_numeric Samples.availability_report = Ok out
    /\ columns out
       = ["Node Alias"; "IP Address"; "Availability"; "Latency(msec)"; "Packet Loss(%)"]
    /\ List.length (rows out) + 5 <= List.length (rows Samples.availability_report).
Proof.
  exists Samples.cleaned_availability. split; [reflexivity|].
  destruct (data2_clean_rows_from_report Samples.sample_to_numeric
              Samples.availability_report Samples.cleaned_availability eq_refl)
    as [Hcols [Hlen _]].
  split; [rewrite Hcols; reflexivity | exact Hlen].
Defined.

(** ** When the start-up code returns *)












(** ** The counts and the availability report *)

Lemma stutters_In {A : Type} (xs ys : list A) (a : A) :
  stutters xs ys -> (In a xs <-> In a ys).
Proof.
  induction 1 as [|x n xs ys H IH]; [reflexivity|].
  simpl. rewrite in_app_iff, IH. split.
  - intros [Hx|Hin]; [left; exact Hx | right; right; exact Hin].
  - intros [Hx|[Hrep|Hin]]; [left; exact Hx | left | right; exact Hin].
    apply repeat_spec in Hrep. symmetry. exact Hrep.
Qed.

Lemma stutters_map {A B : Type} (f : A -> B) (xs ys : list A) :
  stutters xs ys -> stutters (map f xs) (map f ys).
Proof.
  induction 1 as [|x n xs ys H IH]; [constructor|].
  simpl. rewrite map_app, map_repeat. constructor. exact IH.
Qed.

Lemma filter_repeat {A : Type} (p : A -> bool) (x : A) (n : nat) :
  filter p (repeat x n) = if p x then repeat x n else [].
Proof.
  induction n as [|n IH]; simpl; [destruct (p x); reflexivity|].
  rewrite IH. destruct (p x); reflexivity.
Qed.

Lemma stutters_filter {A : Type} (p : A -> bool) (xs ys : list A) :
  stutters xs ys -> stutters (filter p xs) (filter p ys).
Proof.
  induction 1 as [|x n xs ys H IH]; [constructor|].
  simpl. rewrite filter_app, filter_repeat.
  destruct (p x); [constructor; exact IH | exact IH].
Qed.

Lemma stutters_nodup (xs ys : list cell) :
  stutters xs ys -> nodup cell_eq_dec ys = nodup cell_eq_dec xs.
Proof.
  induction 1 as [|x n xs ys H IH]; [reflexivity|].
  induction n as [|n IHn].
  - simpl. rewrite IH.
    destruct (in_dec cell_eq_dec x ys) as [Hy|Hy];
      destruct (in_dec cell_eq_dec x xs) as [Hx|Hx]; try reflexivity;
      exfalso; [apply Hx | apply Hy]; apply (stutters_In _ _ x H); assumption.
  - rewrite <- IHn. cbn [repeat app nodup].
    destruct (in_dec cell_eq_dec x (x :: repeat x n ++ ys)) as [_|Hno];
      [reflexivity|].
    exfalso. apply Hno. left. reflexivity.
Qed.

Lemma group_keys_pairs (df : frame) :
  group_keys "Node Alias" df
  = sort_cells (nodup cell_eq_dec
                  (filter notna (map fst (map (alias_and_time (columns df)) (rows df))))).
Proof.
  unfold group_keys. rewrite map_map. reflexivity.
Qed.

Lemma group_values_pairs (df : frame) (k : cell) :
  group_values "Node Alias" "Alarm Time" df k
  = map snd (filter (fun p => cell_eqb (fst p) k)
               (map (alias_and_time (columns df)) (rows df))).
Proof.
  unfold group_values. rewrite filter_map_comm, map_map. reflexivity.
Qed.

(** Two tables whose rows show the same aliases and times, up to rows
    written several times in a row, group into the same summaries. *)
Lemma summaries_of_stutters (df df' : frame) :
  stutters (map (alias_and_time (columns df)) (rows df))
    (map (alias_and_time (columns df')) (rows df')) ->
  summaries_of df' = summaries_of df.
Proof.
  intros H. unfold summaries_of. rewrite !group_keys_pairs.
  rewrite (stutters_nodup _ _ (stutters_filter notna _ _ (stutters_map fst _ _ H))).
  apply map_ext. intros k. f_equal. f_equal. unfold nunique.
  rewrite !group_values_pairs.
  rewrite (stutters_nodup _ _
             (stutters_filter notna _ _
                (stutters_map snd _ _
                   (stutters_filter (fun p => cell_eqb (fst p) k) _ _ H)))).
  reflexivity.
Qed.

Lemma groupby_nunique_ok (df : frame) :
  has_col "Node Alias" df = true ->
  has_col "Alarm Time" df = true ->
  groupby_nunique "Node Alias" "Alarm Time" "Downtime Count" df
  = Ok (summary_table (summaries_of df)).
Proof.
  intros Hna Hat. unfold groupby_nunique, get_col. rewrite Hna, Hat.
  cbn [rbind]. unfold summary_table, summaries_of. rewrite map_map. reflexivity.
Qed.

Lemma data1_clean_has_cols (to_datetime : cell -> option Z) (df out : frame) :
  data1_clean to_datetime df = Ok out ->
  has_col "Node Alias" out = true /\ has_col "Alarm Time" out = true.
Proof.
  intros Hout. destruct (data1_clean_inv _ _ _ Hout) as [Hna Hat].
  rewrite (data1_clean_shape _ _ _ Hout).
  rewrite !(has_col_same_columns _ (mkFrame _ _) (alarm_table df)) by reflexivity.
  split; assumption.
Qed.

Lemma joined_rows_stutter (alarms avail right merged : frame) (ls : list (list cell)) :
  columns right = ["IP Address"; "Availability"] ->
  merge_left "IP Address" alarms right = Ok merged ->
  (forall l, In l ls ->
     exists a t, lookup_cell (columns alarms) l "Node Alias" = Some a
                 /\ lookup_cell (columns alarms) l "Alarm Time" = Some t) ->
  stutters (map (alias_and_time (columns alarms)) ls)
    (map (alias_and_time (columns merged)) (flat_map (joined_rows alarms avail) ls)).
Proof.
  intros Hcols Hmerge. induction ls as [|l ls IH]; intros Hcells; [constructor|].
  cbn [flat_map map]. rewrite map_app.
  destruct (Hcells l (or_introl eq_refl)) as [a [t [Ha Ht]]].
  assert (Hshow : forall w, alias_and_time (columns merged) (l ++ [w])
                            = alias_and_time (columns alarms) l).
  { intros w. unfold alias_and_time.
    rewrite (merged_cell _ _ _ _ _ "Node Alias" a Hcols Hmerge) by (auto || exact Ha).
    rewrite (merged_cell _ _ _ _ _ "Alarm Time" t Hcols Hmerge) by (auto || exact Ht).
    unfold cell_at. rewrite Ha, Ht. reflexivity. }
  destruct (joined_rows_retain alarms avail l) as [v [vs Hj]]. rewrite Hj.
  cbn [map]. rewrite map_map, Hshow.
  rewrite (map_ext (fun w => alias_and_time (columns merged) (l ++ [w]))
             (fun _ => alias_and_time (columns alarms) l))
    by (intros w; apply Hshow).
  rewrite map_const. constructor. apply IH.
  intros l' Hl'. apply Hcells. right. exact Hl'.
Qed.

(** The counts are those of the cleaned alarm log on its own. *)
Lemma downtime_count_of_alarms (to_datetime : cell -> option Z)
  (to_numeric : cell -> option Q) (df1 df2 : frame) (g : globals) :
  startup to_datetime to_numeric df1 df2 = Ok g ->
  exists alarms,
    data1_clean to_datetime df1 = Ok alarms
    /\ downtime_count g = summary_table (summaries_of alarms).
Proof.
  intros Hstart. destruct (startup_inv _ _ _ _ _ Hstart)
    as [alarms [avail [right [Ha [_ [Hsel [Hmerge Hgroup]]]]]]].
  exists alarms. split; [exact Ha|].
  apply groupby_nunique_inv in Hgroup. rewrite Hgroup.
  assert (Hcols : columns right = ["IP Address"; "Availability"])
    by (apply select_columns_inv in Hsel; subst right; reflexivity).
  rewrite (summaries_of_stutters alarms (merged_df g)); [reflexivity|].
  rewrite (merged_rows _ _ _ _ Hsel Hmerge).
  apply (joined_rows_stutter _ _ right); [exact Hcols | exact Hmerge|].
  intros l Hl. destruct (data1_clean_cells _ _ _ _ Ha Hl) as [a [t [H1 [_ H2]]]].
  exists a, (Time t). split; assumption.
Qed.

(** X7. The counts do not depend on the availability report: when the
    start-up code returns, its [downtime_count] table is the table the
    group-by gives on the cleaned alarm log alone, so two availability
    reports on which it returns give the same table. *)
Theorem downtime_count_ignores_availability (to_datetime : cell -> option Z)
  (to_numeric : cell -> option Q) (df1 df2 : frame) (g : globals) :
  startup to_datetime to_numeric df1 df2 = Ok g ->
  (exists alarms,
      data1_clean to_datetime df1 = Ok alarms
      /\ groupby_nunique "Node Alias" "Alarm Time" "Downtime Count" alarms
         = Ok (downtime_count g))
  /\ forall df2' g',
       startup to_datetime to_numeric df1 df2' = Ok g' ->
       downtime_count g' = downtime_count g.
Proof.
  assert (Hone : forall d2 g0,
             startup to_datetime to_numeric df1 d2 = Ok g0 ->
             exists alarms,
               data1_clean to_datetime df1 = Ok alarms
               /\ groupby_nunique "Node Alias" "Alarm Time" "Downtime Count" alarms
                  = Ok (downtime_count g0)).
  { intros d2 g0 Hstart.
    destruct (downtime_count_of_alarms _ _ _ _ _ Hstart) as [alarms [Ha Hcount]].
    exists alarms. split; [exact Ha|]. rewrite Hcount.
    destruct (data1_clean_has_cols _ _ _ Ha) as [Hna Hat].
    apply groupby_nunique_ok; assumption. }
  intros Hstart. split; [apply (Hone df2 g Hstart)|].
  intros df2' g' Hstart'.
  destruct (Hone df2 g Hstart) as [alarms [Ha Hg]].
  destruct (Hone df2' g' Hstart') as [alarms' [Ha' Hg']].
  congruence.
Qed.

Lemma downtime_count_ignores_availability_witness :
  exists g g',
    startup Samples.sample_to_datetime Samples.sample_to_numeric
      Samples.alarm_log Samples.availability_report = Ok g
    /\ startup Samples.sample_to_datetime Samples.sample_to_numeric
         Samples.alarm_log Samples.duplicated_report = Ok g'
    /\ merged_df g' <> merged_df g
    /\ downtime_count g' = downtime_count g.
Proof.
  destruct (startup Samples.sample_to_datetime Samples.sample_to_numeric
              Samples.alarm_log Samples.availability_report) as [g|] eqn:Hg;
    [|vm_compute in Hg; discriminate Hg].
  destruct (startup Samples.sample_to_datetime Samples.sample_to_numeric
              Samples.alarm_log Samples.duplicated_report) as [g'|] eqn:Hg';
    [|vm_compute in Hg'; discriminate Hg'].
  exists g, g'. split; [reflexivity|]. split; [reflexivity|]. split.
  - vm_compute in Hg, Hg'. injection Hg as <-. injection Hg' as <-.
    discriminate.
  - apply (proj2 (downtime_count_ignores_availability _ _ _ _ _ Hg) _ _ Hg').
Defined.

(** ** Which file the locator picks *)







(** ** What the callback can return *)

Lemma subsequence_refl {A : Type} (l : list A) : subsequence l l.
Proof.
  induction l as [|x l IH]; constructor. exact IH.
Qed.

Lemma subsequence_trans {A : Type} (l1 l2 l3 : list A) :
  subsequence l1 l2 -> subsequence l2 l3 -> subsequence l1 l3.
Proof.
  intros H12 H23. revert l1 H12.
  induction H23 as [l'|x l l' H IH|x l l' H IH]; intros l1 H12.
  - inversion H12; subst. constructor.
  - inversion H12; subst.
    + constructor.
    + constructor. apply IH. assumption.
    + apply subsequence_skip. apply IH. assumption.
  - apply subsequence_skip. apply IH. exact H12.
Qed.

Lemma subsequence_map {A B : Type} (f : A -> B) (l l' : list A) :
  subsequence l l' -> subsequence (map f l) (map f l').
Proof.
  induction 1; simpl; constructor; assumption.
Qed.

Lemma subsequence_length {A : Type} (l l' : list A) :
  subsequence l l' -> List.length l <= List.length l'.
Proof.
  induction 1; simpl; lia.
Qed.

Lemma select_subsequence {A : Type} (mask : list bool) (l : list A) :
  subsequence (select mask l) l.
Proof.
  revert l. induction mask as [|b mask IH]; intros [|x l]; simpl;
    try apply subsequence_nil.
  destruct b; [apply subsequence_keep | apply subsequence_skip]; apply IH.
Qed.

Lemma boolean_index_narrows (df : frame) (mask : list bool) :
  narrows (boolean_index df mask) df.
Proof.
  split; [reflexivity | apply select_subsequence].
Qed.

Ltac callback_cases H :=
  unfold bind, pure_op, ret in H;
  repeat match type of H with
         | context [match ?r with Ok _ => _ | Raise _ => _ end] =>
             destruct r; try discriminate H
         end;
  injection H as <- <-.

Lemma bucket_filter_narrows (v : option string) (df df' : frame) (g g' : globals) :
  bucket_filter v df g = (Ok df', g') -> narrows df' df.
Proof.
  unfold bucket_filter. intros H.
  destruct (value_is v "1-3");
    [|destruct (value_is v "4-5");
      [|destruct (value_is v ">5"); [|destruct (value_is v ">10")]]];
    callback_cases H;
    try apply boolean_index_narrows.
  split; [reflexivity | apply subsequence_refl].
Qed.

Lemma date_filter_narrows (to_datetime : cell -> option Z) (s e : option string)
  (df df' : frame) (g g' : globals) :
  date_filter to_datetime s e df g = (Ok df', g') -> narrows df' df.
Proof.
  unfold date_filter. intros H. destruct (truthy s && truthy e).
  - callback_cases H. apply boolean_index_narrows.
  - callback_cases H. split; [reflexivity | apply subsequence_refl].
Qed.

Lemma narrows_records (df' df : frame) :
  narrows df' df -> subsequence (to_dict_records df') (to_dict_records df).
Proof.
  intros [Hcols Hrows]. unfold to_dict_records. rewrite Hcols.
  apply subsequence_map. exact Hrows.
Qed.

(** X10. Whatever table the module holds and whatever the arguments are,
    the records [filter_data] returns are records of the table, in table
    order: the callback leaves rows out, and it never adds, changes or
    reorders one. *)
Theorem filter_data_returns_table_rows (to_datetime : cell -> option Z)
  (n_clicks : option Z) (start_date end_date downtime_value : option string)
  (g : globals) (records : list (list (string * cell))) :
  fst (filter_data to_datetime n_clicks start_date end_date downtime_value g)
  = Ok records ->
  subsequence records (to_dict_records (downtime_count g))
  /\ List.length records <= List.length (rows (downtime_count g)).
Proof.
  intros H.
  assert (Hsub : subsequence records (to_dict_records (downtime_count g))).
  { unfold filter_data in H. destruct n_clicks as [n|].
    - unfold bind at 1, read in H.
      unfold bind at 1 in H.
      destruct (bucket_filter downtime_value (downtime_count g) g)
        as [[df1|e1] g1] eqn:Hb; [|discriminate H].
      unfold bind at 1 in H.
      destruct (date_filter to_datetime start_date end_date df1 g1)
        as [[df2|e2] g2] eqn:Hd; [|discriminate H].
      unfold ret in H. cbn [fst] in H. injection H as <-.
      apply narrows_records.
      apply bucket_filter_narrows in Hb. apply date_filter_narrows in Hd.
      destruct Hb as [Hc1 Hr1]. destruct Hd as [Hc2 Hr2].
      split; [congruence | eapply subsequence_trans; eassumption].
    - unfold bind, read, ret in H. cbn [fst] in H. injection H as <-.
      apply subsequence_refl. }
  split; [exact Hsub|].
  apply subsequence_length in Hsub. unfold to_dict_records in Hsub.
  rewrite length_map in Hsub. exact Hsub.
Qed.

Lemma filter_data_returns_table_rows_witness :
  let g := mkGlobals (mkFrame [] []) (summary_table Samples.sample_summaries) in
  fst (filter_data Samples.sample_to_datetime (Some 1%Z) None None (Some ">5") g)
  = Ok [summary_record (mkSummary (Str "C") 6); summary_record (mkSummary (Str "D") 11)]
  /\ subsequence
       [summary_record (mkSummary (Str "C") 6); summary_record (mkSummary (Str "D") 11)]
       (to_dict_records (downtime_count g)).
Proof.
  cbv zeta. split; [reflexivity|].
  apply (filter_data_returns_table_rows Samples.sample_to_datetime (Some 1%Z) None None
           (Some ">5")
           (mkGlobals (mkFrame [] []) (summary_table Samples.sample_summaries))
           _ eq_refl).
Defined.

(** ** How the buckets divide the table *)

Lemma filter_three_way {A : Type} (p q r : A -> bool) (l : list A) :
  (forall a, In a l ->
     (p a = true /\ q a = false /\ r a = false)
     \/ (p a = false /\ q a = true /\ r a = false)
     \/ (p a = false /\ q a = false /\ r a = true)) ->
  Permutation (filter p l ++ filter q l ++ filter r l) l.
Proof.
  induction l as [|a l IH]; intros H; [constructor|].
  assert (IH' : Permutation (filter p l ++ filter q l ++ filter r l) l)
    by (apply IH; intros b Hb; apply H; right; exact Hb).
  cbn [filter].
  destruct (H a (or_introl eq_refl)) as [[-> [-> ->]]|[[-> [-> ->]]|[-> [-> ->]]]].
  - cbn [app]. constructor. exact IH'.
  - apply Permutation_sym. apply Permutation_cons_app.
    apply Permutation_sym. exact IH'.
  - apply Permutation_sym. rewrite app_assoc. apply Permutation_cons_app.
    rewrite <- app_assoc. apply Permutation_sym. exact IH'.
Qed.

Lemma filter_subsequence {A : Type} (p q : A -> bool) (l : list A) :
  (forall a, p a = true -> q a = true) ->
  subsequence (filter p l) (filter q l).
Proof.
  intros H. induction l as [|a l IH]; simpl; [constructor|].
  destruct (p a) eqn:Ep.
  - rewrite (H a Ep). constructor. exact IH.
  - destruct (q a); [apply subsequence_skip|]; exact IH.
Qed.

(** X11. On a table of summaries, after a click and without a full date
    range, the buckets ["1-3"], ["4-5"] and [">5"] divide the table: every
    summary is returned under exactly one of the three, so the three results
    together are the whole table, rearranged; and what [">10"] returns is
    part of what [">5"] returns. *)
Theorem filter_data_buckets_divide (to_datetime : cell -> option Z) (g : globals)
  (l : list DowntimeSummary) (n : Z) (start_date end_date : option string) :
  downtime_count g = summary_table l ->
  truthy start_date && truthy end_date = false ->
  exists low mid high top,
    filter_data to_datetime (Some n) start_date end_date (Some "1-3") g = (Ok low, g)
    /\ filter_data to_datetime (Some n) start_date end_date (Some "4-5") g = (Ok mid, g)
    /\ filter_data to_datetime (Some n) start_date end_date (Some ">5") g = (Ok high, g)
    /\ filter_data to_datetime (Some n) start_date end_date (Some ">10") g = (Ok top, g)
    /\ Permutation (low ++ mid ++ high) (map summary_record l)
    /\ subsequence top high.
Proof.
  intros Htable Hdates.
  do 4 eexists.
  split; [apply (filter_data_on_summaries to_datetime g l); assumption|].
  split; [apply (filter_data_on_summaries to_datetime g l); assumption|].
  split; [apply (filter_data_on_summaries to_datetime g l); assumption|].
  split; [apply (filter_data_on_summaries to_datetime g l); assumption|].
  split.
  - rewrite <- !map_app. apply Permutation_map. apply filter_three_way.
    intros s _. unfold bucket_keeps. cbn [value_is String.eqb Ascii.eqb Bool.eqb].
    destruct (Z.leb (DowntimeCount s) 3) eqn:E3;
      destruct (Z.ltb 3 (DowntimeCount s)) eqn:E3';
      destruct (Z.leb (DowntimeCount s) 5) eqn:E5;
      destruct (Z.ltb 5 (DowntimeCount s)) eqn:E5';
      cbn [andb]; try (left; repeat split; reflexivity);
      try (right; left; repeat split; reflexivity);
      try (right; right; repeat split; reflexivity);
      exfalso;
      rewrite ?Z.leb_le, ?Z.leb_gt, ?Z.ltb_lt, ?Z.ltb_ge in *; lia.
  - apply subsequence_map. apply filter_subsequence.
    intros s. unfold bucket_keeps. cbn [value_is String.eqb Ascii.eqb Bool.eqb].
    rewrite !Z.ltb_lt. lia.
Qed.

Lemma filter_data_buckets_divide_witness :
  let g := mkGlobals (mkFrame [] []) (summary_table Samples.sample_summaries) in
  downtime_count g = summary_table Samples.sample_summaries
  /\ truthy None && truthy None = false
  /\ exists low mid high top,
       filter_data Samples.sample_to_datetime (Some 1%Z) None None (Some "1-3") g
       = (Ok low, g)
       /\ filter_data Samples.sample_to_datetime (Some 1%Z) None None (Some "4-5") g
          = (Ok mid, g)
       /\ filter_data Samples.sample_to_datetime (Some 1%Z) None None (Some ">5") g
          = (Ok high, g)
       /\ filter_data Samples.sample_to_datetime (Some 1%Z) None None (Some ">10") g
          = (Ok top, g)
       /\ Permutation (low ++ mid ++ high)
            (map summary_record Samples.sample_summaries)
       /\ subsequence top high.
Proof.
  cbv zeta. split; [reflexivity|]. split; [reflexivity|].
  apply (filter_data_buckets_divide Samples.sample_to_datetime
           (mkGlobals (mkFrame [] []) (summary_table Samples.sample_summaries))
           Samples.sample_summaries 1%Z None None eq_refl eq_refl).
Defined.

(** ** The order of the aggregated table *)

Lemma Qle_bool_total (x y : Q) : Qle_bool x y = true \/ Qle_bool y x = true.
Proof.
  destruct (Qlt_le_dec x y) as [H|H].
  - left. apply Qle_bool_iff. apply Qlt_le_weak. exact H.
  - right. apply Qle_bool_iff. exact H.
Qed.

Lemma Zleb_total (x y : Z) : Z.leb x y = true \/ Z.leb y x = true.
Proof.
  destruct (Z.leb x y) eqn:E; [left; reflexivity|].
  right. apply Z.leb_le. apply Z.leb_gt in E. lia.
Qed.

Lemma cell_leb_total (a b : cell) : cell_leb a b = true \/ cell_leb b a = true.
Proof.
  destruct a, b; cbn;
    try (left; reflexivity); try (right; reflexivity);
    first [apply String.leb_total | apply Qle_bool_total | apply Zleb_total].
Qed.

Lemma insert_sorted_HdRel (a c : cell) (l : list cell) :
  cell_leb a c = true ->
  HdRel (fun x y => cell_leb x y = true) a l ->
  HdRel (fun x y => cell_leb x y = true) a (insert_sorted c l).
Proof.
  intros Hac Hhd. destruct l as [|x l]; simpl; [constructor; exact Hac|].
  destruct (cell_leb c x); constructor; [exact Hac|].
  inversion Hhd; assumption.
Qed.

Lemma insert_sorted_Sorted (c : cell) (l : list cell) :
  Sorted (fun x y => cell_leb x y = true) l ->
  Sorted (fun x y => cell_leb x y = true) (insert_sorted c l).
Proof.
  induction l as [|x l IH]; intros Hs; simpl; [repeat constructor|].
  destruct (cell_leb c x) eqn:E.
  - constructor; [exact Hs | constructor; exact E].
  - inversion Hs as [|? ? Hs' Hhd]; subst. constructor; [apply IH; exact Hs'|].
    apply insert_sorted_HdRel; [|exact Hhd].
    destruct (cell_leb_total c x) as [H|H]; [congruence | exact H].
Qed.

Lemma sort_cells_Sorted (l : list cell) :
  Sorted (fun x y => cell_leb x y = true) (sort_cells l).
Proof.
  induction l as [|x l IH]; simpl; [constructor|].
  apply insert_sorted_Sorted. exact IH.
Qed.

Lemma Sorted_text (names : list string) :
  Sorted (fun x y => cell_leb x y = true) (map Str names) ->
  Sorted (fun s s' => String.leb s s' = true) names.
Proof.
  induction names as [|s names IH]; intros H; [constructor|].
  inversion H as [|? ? Hs Hhd]; subst. constructor; [apply IH; exact Hs|].
  destruct names as [|s' names]; constructor.
  inversion Hhd; assumption.
Qed.

Lemma all_text (l : list cell) :
  (forall c, In c l -> exists s, c = Str s) -> exists names, l = map Str names.
Proof.
  induction l as [|c l IH]; intros H; [exists []; reflexivity|].
  destruct (H c (or_introl eq_refl)) as [s ->].
  destruct IH as [names ->]; [intros c Hc; apply H; right; exact Hc|].
  exists (s :: names). reflexivity.
Qed.

(** X12. When every joined row names its node by a text, the rows of the
    [downtime_count] table come in ascending order of the node alias, as the
    group-by sorts its keys, and no alias comes twice. *)
Theorem downtime_count_sorted_by_alias (to_datetime : cell -> option Z)
  (to_numeric : cell -> option Q) (df1 df2 : frame) (g : globals) :
  startup to_datetime to_numeric df1 df2 = Ok g ->
  (forall r, In r (rows (merged_df g)) ->
     exists s, cell_at (columns (merged_df g)) "Node Alias" r = Str s) ->
  exists l names,
    downtime_count g = summary_table l
    /\ map NodeAlias l = map Str names
    /\ Sorted (fun s s' => String.leb s s' = true) names
    /\ NoDup names.
Proof.
  intros Hstart Htext.
  destruct (startup_inv _ _ _ _ _ Hstart)
    as [alarms [avail [right [_ [_ [_ [_ Hgroup]]]]]]].
  apply groupby_nunique_inv in Hgroup.
  destruct (all_text (group_keys "Node Alias" (merged_df g))) as [names Hnames].
  { intros c Hc. apply group_keys_In in Hc. destruct Hc as [_ [r [Hin Hr]]].
    destruct (Htext r Hin) as [s Hs]. exists s. congruence. }
  exists (summaries_of (merged_df g)), names. split; [exact Hgroup|].
  rewrite summaries_of_aliases. split; [exact Hnames|]. split.
  - apply Sorted_text. rewrite <- Hnames. unfold group_keys. apply sort_cells_Sorted.
  - apply (NoDup_map_inv Str). rewrite <- Hnames. apply group_keys_NoDup.
Qed.

Lemma downtime_count_sorted_by_alias_witness :
  exists g l,
    startup Samples.sample_to_datetime Samples.sample_to_numeric
      Samples.alarm_log Samples.availability_report = Ok g
    /\ downtime_count g = summary_table l
    /\ map NodeAlias l = map Str ["A"; "B"].
Proof.
  pose (g := mkGlobals Samples.merged
               (summary_table [mkSummary (Str "A") 2; mkSummary (Str "B") 1])).
  assert (Htext : forall r, In r (rows (merged_df g)) ->
            exists s, cell_at (columns (merged_df g)) "Node Alias" r = Str s).
  { intros r [<-|[<-|[<-|[<-|[]]]]]; eexists; reflexivity. }
  destruct (downtime_count_sorted_by_alias Samples.sample_to_datetime
              Samples.sample_to_numeric Samples.alarm_log Samples.availability_report
              g eq_refl Htext) as [l [names [Hl [Hnames _]]]].
  exists g, l. split; [reflexivity|]. split; [exact Hl|].
  rewrite Hnames. f_equal.
  assert (Hrows : map summary_row l
                  = [[Str "A"; Int 2]; [Str "B"; Int 1]])
    by (change (rows (summary_table l) = rows (downtime_count g));
        rewrite Hl; reflexivity).
  destruct l as [|[a1 c1] [|[a2 c2] [|? ?]]]; try discriminate Hrows.
  cbn in Hrows, Hnames. injection Hrows as -> _ -> _.
  destruct names as [|n1 [|n2 [|? ?]]]; try discriminate Hnames.
  injection Hnames as <- <-. reflexivity.
Defined.

(** ** The script around the tables *)





(** ** The bounds of the date picker *)

Lemma series_extreme_times (pick : Z -> Z -> Z) (R : Z -> Z -> Prop)
  (col : list cell) :
  (forall a b, pick a b = a \/ pick a b = b) ->
  (forall a b, R (pick a b) a /\ R (pick a b) b) ->
  (forall a, R a a) ->
  (forall a b c, R a b -> R b c -> R a c) ->
  (forall c, In c col -> exists t, c = Time t) ->
  match col with
  | [] => series_extreme pick col = Ok None
  | _ :: _ =>
      exists m,
        series_extreme pick col = Ok (Some m)
        /\ In (Time m) col
        /\ forall t, In (Time t) col -> R m t
  end.
Proof.
  intros Hpick HR Hrefl Htrans. induction col as [|c col IH]; intros Hcol;
    [reflexivity|].
  destruct (Hcol c (or_introl eq_refl)) as [t0 ->].
  assert (IH' := IH (fun c Hc => Hcol c (or_intror Hc))). clear IH.
  cbn [series_extreme cell_time rbind]. destruct col as [|c' col'].
  - cbn [series_extreme rbind]. exists t0. split; [reflexivity|].
    split; [left; reflexivity|].
    intros t [Ht|[]]. injection Ht as <-. apply Hrefl.
  - destruct IH' as [m [Hm [Hin Hle]]]. rewrite Hm. cbn [rbind].
    exists (pick t0 m). split; [reflexivity|]. split.
    + destruct (Hpick t0 m) as [-> | ->]; [left; reflexivity | right; exact Hin].
    + intros t [Ht|Ht].
      * injection Ht as <-. apply HR.
      * eapply Htrans; [apply HR | apply Hle; exact Ht].
Qed.

(** X15. When the start-up code returns, the bounds of the date picker are
    computed without an exception and enclose the alarm time of every joined
    row; each bound is the alarm time of some joined row, and when there is
    no joined row the bounds are the first of January and the thirty-first of
    December 2020.  The lower bound is never above the upper one. *)
Theorem date_bounds_enclose_alarms (to_datetime : cell -> option Z)
  (to_numeric : cell -> option Q) (df1 df2 : frame) (g : globals) :
  startup to_datetime to_numeric df1 df2 = Ok g ->
  let time := cell_at (columns (merged_df g)) "Alarm Time" in
  exists min_date max_date,
    date_bounds (merged_df g) = Ok (min_date, max_date)
    /\ (min_date <= max_date)%Z
    /\ (forall r, In r (rows (merged_df g)) ->
          exists t, time r = Time t /\ (min_date <= t <= max_date)%Z)
    /\ match rows (merged_df g) with
       | [] => min_date = default_min_date /\ max_date = default_max_date
       | _ :: _ =>
           (exists r, In r (rows (merged_df g)) /\ time r = Time min_date)
           /\ (exists r, In r (rows (merged_df g)) /\ time r = Time max_date)
       end.
Proof.
  intros Hstart time.
  assert (Htimes : forall r, In r (rows (merged_df g)) -> exists t, time r = Time t).
  { intros r Hin. destruct (joined_row_cells _ _ _ _ _ _ Hstart Hin)
      as [alarms [l [t [_ [_ [_ [_ Ht]]]]]]]. exists t. exact Ht. }
  destruct (startup_inv _ _ _ _ _ Hstart)
    as [alarms [avail [right [_ [_ [_ [_ Hgroup]]]]]]].
  assert (Hcol : get_col "Alarm Time" (merged_df g)
                 = Ok (map time (rows (merged_df g)))).
  { unfold groupby_nunique, get_col in *.
    destruct (has_col "Node Alias" (merged_df g)); [|discriminate Hgroup].
    destruct (has_col "Alarm Time" (merged_df g)); [reflexivity | discriminate Hgroup]. }
  assert (Hall : forall c, In c (map time (rows (merged_df g))) -> exists t, c = Time t).
  { intros c Hc. apply in_map_iff in Hc. destruct Hc as [r [<- Hin]].
    apply Htimes. exact Hin. }
  pose proof (series_extreme_times Z.min Z.le (map time (rows (merged_df g)))
                (fun a b => ltac:(lia))
                (fun a b => conj (Z.le_min_l a b) (Z.le_min_r a b))
                Z.le_refl Z.le_trans Hall) as Hmin.
  pose proof (series_extreme_times Z.max Z.ge (map time (rows (merged_df g)))
                (fun a b => ltac:(lia))
                (fun a b => ltac:(lia)) (fun a => ltac:(lia))
                (fun a b c H1 H2 => ltac:(lia)) Hall) as Hmax.
  unfold date_bounds. rewrite Hcol. cbn [rbind].
  destruct (rows (merged_df g)) as [|r0 rs] eqn:Hrows.
  - cbn [map] in Hmin, Hmax. cbn [map]. rewrite Hmin, Hmax. cbn [rbind].
    exists default_min_date, default_max_date. split; [reflexivity|].
    split; [unfold default_min_date, default_max_date; lia|].
    split; [intros r []|]. split; reflexivity.
  - cbn [map] in Hmin, Hmax.
    destruct Hmin as [lo [Hlo [Hlo_in Hlo_le]]].
    destruct Hmax as [hi [Hhi [Hhi_in Hhi_ge]]].
    change (time r0 :: map time rs) with (map time (r0 :: rs)) in *.
    rewrite Hlo, Hhi. cbn [rbind]. exists lo, hi. split; [reflexivity|].
    assert (Hbound : forall r, In r (r0 :: rs) ->
              exists t, time r = Time t /\ (lo <= t <= hi)%Z).
    { intros r Hin. destruct (Htimes r Hin) as [t Ht]. exists t.
      split; [exact Ht|].
      assert (Hmem : In (Time t) (map time (r0 :: rs)))
        by (rewrite <- Ht; apply in_map; exact Hin).
      pose proof (Hlo_le t Hmem). pose proof (Hhi_ge t Hmem). lia. }
    split.
    + destruct (Hbound r0 (or_introl eq_refl)) as [t [_ Ht]]. lia.
    + split; [exact Hbound|]. split.
      * apply in_map_iff in Hlo_in. destruct Hlo_in as [r [Hr Hin]].
        exists r. split; assumption.
      * apply in_map_iff in Hhi_in. destruct Hhi_in as [r [Hr Hin]].
        exists r. split; assumption.
Qed.

Lemma date_bounds_enclose_alarms_witness :
  exists g,
    startup Samples.sample_to_datetime Samples.sample_to_numeric
      Samples.alarm_log Samples.availability_report = Ok g
    /\ date_bounds (merged_df g)
       = Ok (1704067200000000000%Z, 1704153600000000000%Z).
Proof.
  pose (g := mkGlobals Samples.merged
               (summary_table [mkSummary (Str "A") 2; mkSummary (Str "B") 1])).
  exists g. split; [reflexivity|].
  destruct (date_bounds_enclose_alarms Samples.sample_to_datetime
              Samples.sample_to_numeric Samples.alarm_log Samples.availability_report
              g eq_refl) as [lo [hi [Hb _]]].
  rewrite Hb. vm_compute in Hb. symmetry. exact Hb.
Defined.

(** ** Cleaning a cleaned log *)











(** ** How large the counts can be *)

Lemma filter_split_length {A : Type} (p : A -> bool) (l : list A) :
  List.length (filter p l) + List.length (filter (fun a => negb (p a)) l)
  = List.length l.
Proof.
  induction l as [|a l IH]; simpl; [reflexivity|].
  destruct (p a); simpl; lia.
Qed.

Lemma cell_eqb_eq (a b : cell) : cell_eqb a b = true <-> a = b.
Proof.
  unfold cell_eqb. destruct (cell_eq_dec a b); split; intros; congruence.
Qed.

(** Groups under distinct keys share no row. *)
Lemma group_sizes_le {A : Type} (f : A -> cell) (ks : list cell) (l : list A) :
  NoDup ks ->
  list_sum (map (fun k => List.length (filter (fun a => cell_eqb (f a) k) l)) ks)
  <= List.length l.
Proof.
  intros Hnd. revert l. induction Hnd as [|k ks Hnotin Hnd IH]; intros l;
    [simpl; lia|].
  cbn [map list_sum fold_right].
  pose proof (filter_split_length (fun a => cell_eqb (f a) k) l) as Hsplit.
  pose proof (IH (filter (fun a => negb (cell_eqb (f a) k)) l)) as Hrest.
  assert (Hsame :
    map (fun k' => List.length
                     (filter (fun a => cell_eqb (f a) k')
                        (filter (fun a => negb (cell_eqb (f a) k)) l))) ks
    = map (fun k' => List.length (filter (fun a => cell_eqb (f a) k') l)) ks).
  { apply map_ext_in. intros k' Hk'. f_equal. rewrite filter_filter.
    apply filter_ext. intros a.
    destruct (cell_eqb (f a) k') eqn:E'; [|apply andb_false_r].
    rewrite andb_true_r. apply cell_eqb_eq in E'.
    destruct (cell_eqb (f a) k) eqn:E; [|reflexivity].
    apply cell_eqb_eq in E. exfalso. apply Hnotin. congruence. }
  rewrite Hsame in Hrest. cbv beta in Hsplit. unfold list_sum in *. lia.
Qed.

Lemma nunique_le (vs : list cell) : nunique vs <= List.length vs.
Proof.
  unfold nunique. etransitivity; [|apply (filter_length_le notna)].
  apply NoDup_incl_length; [apply NoDup_nodup|].
  intros c Hc. apply nodup_In in Hc. exact Hc.
Qed.

Lemma sum_counts (n : cell -> nat) (ks : list cell) :
  fold_right Z.add 0%Z (map (fun k => Z.of_nat (n k)) ks)
  = Z.of_nat (list_sum (map n ks)).
Proof.
  induction ks as [|k ks IH]; simpl; [reflexivity|]. rewrite IH. lia.
Qed.

(** X17. The counts stay within the alarms: the count of a node is at most
    the number of cleaned alarm rows of that node, and the counts of the
    whole [downtime_count] table add up to at most the number of cleaned
    alarm rows, which is at most the number of rows of the alarm file. *)
Theorem downtime_counts_bounded (to_datetime : cell -> option Z)
  (to_numeric : cell -> option Q) (df1 df2 : frame) (g : globals) :
  startup to_datetime to_numeric df1 df2 = Ok g ->
  exists alarms l,
    data1_clean to_datetime df1 = Ok alarms
    /\ downtime_count g = summary_table l
    /\ (forall s, In s l ->
          (DowntimeCount s
           <= Z.of_nat
                (List.length
                   (filter (fun r => cell_eqb (cell_at (columns alarms) "Node Alias" r)
                                       (NodeAlias s))
                      (rows alarms))))%Z)
    /\ (fold_right Z.add 0 (map DowntimeCount l)
        <= Z.of_nat (List.length (rows alarms)))%Z
    /\ List.length (rows alarms) <= List.length (rows df1).
Proof.
  intros Hstart.
  destruct (downtime_count_of_alarms _ _ _ _ _ Hstart) as [alarms [Ha Hcount]].
  exists alarms, (summaries_of alarms). split; [exact Ha|]. split; [exact Hcount|].
  assert (Hone : forall k,
            nunique (group_values "Node Alias" "Alarm Time" alarms k)
            <= List.length
                 (filter (fun r => cell_eqb (cell_at (columns alarms) "Node Alias" r) k)
                    (rows alarms))).
  { intros k. etransitivity; [apply nunique_le|].
    unfold group_values. rewrite length_map. lia. }
  split; [|split].
  - intros s Hs. unfold summaries_of in Hs. apply in_map_iff in Hs.
    destruct Hs as [k [<- _]]. cbn [DowntimeCount NodeAlias].
    apply inj_le. apply Hone.
  - unfold summaries_of. rewrite map_map. cbn [DowntimeCount].
    rewrite (sum_counts
               (fun k => nunique (group_values "Node Alias" "Alarm Time" alarms k))).
    apply inj_le.
    etransitivity; [|apply (group_sizes_le (cell_at (columns alarms) "Node Alias")
                              (group_keys "Node Alias" alarms) (rows alarms)
                              (group_keys_NoDup _ _))].
    clear Hcount. induction (group_keys "Node Alias" alarms) as [|k ks IH];
      [simpl; lia|].
    cbn [map list_sum fold_right] in *. unfold list_sum in *.
    specialize (Hone k). lia.
  - rewrite (data1_clean_shape _ _ _ Ha), rows_mk, length_map.
    etransitivity; [apply filter_length_le|].
    unfold alarm_table, drop_columns, rename. rewrite !rows_mk, length_map. lia.
Qed.

Lemma downtime_counts_bounded_witness :
  exists g alarms l,
    startup Samples.sample_to_datetime Samples.sample_to_numeric
      Samples.alarm_log Samples.availability_report = Ok g
    /\ data1_clean Samples.sample_to_datetime Samples.alarm_log = Ok alarms
    /\ downtime_count g = summary_table l
    /\ (fold_right Z.add 0 (map DowntimeCount l)
        <= Z.of_nat (List.length (rows alarms)))%Z.
Proof.
  pose (g := mkGlobals Samples.merged
               (summary_table [mkSummary (Str "A") 2; mkSummary (Str "B") 1])).
  destruct (downtime_counts_bounded Samples.sample_to_datetime
              Samples.sample_to_numeric Samples.alarm_log Samples.availability_report
              g eq_refl) as [alarms [l [Ha [Hl [_ [Hsum _]]]]]].
  exists g, alarms, l. split; [reflexivity|]. repeat split; assumption.
Defined.
